(** * Regression metrics of MONAI: [monai/metrics/regression.py] and
      [monai/handlers/regression_metrics.py]

    A shallow embedding of the metric classes (MSE, MAE, RMSE, PSNR), of the
    helper [compute_mean_error_metrics] they share, of the handler constructors
    and of the loading of the two modules.

    Numbers.  A tensor element is a float.  The embedding keeps the special
    values of the float format (the two infinities and NaN) and takes the
    finite values as real numbers.  [y_pred.float()] rounds every element to
    the nearest number of the 32-bit format, to an infinity beyond its range.
    The operations on the converted elements are exact: the rounding and the
    overflow of their results and the sign of zero are left out, and the
    properties below are those that do not rest on them.  Equality of
    elements is Leibniz equality, under which NaN equals NaN. *)

From Stdlib Require Import Reals Lra Lia List Arith String ZArith.
From stdpp Require Import base option strings gmap.
Import ListNotations.

Open Scope R_scope.

Set Warnings "-clear-no-such-hyp".

(** ** Elements *)

Inductive scalar : Type :=
  | Fin (r : R)
  | PInf
  | NInf
  | NaN.

Definition is_finite (x : scalar) : Prop :=
  match x with Fin _ => True | _ => False end.

Definition isnan (x : scalar) : bool :=
  match x with NaN => true | _ => false end.

(** [0 < x], for a finite value or the positive infinity. *)
Definition is_positive (x : scalar) : Prop :=
  match x with Fin r => 0 < r | PInf => True | _ => False end.

Definition s_neg (x : scalar) : scalar :=
  match x with
  | Fin r => Fin (- r)
  | PInf => NInf
  | NInf => PInf
  | NaN => NaN
  end.

Definition s_add (x y : scalar) : scalar :=
  match x, y with
  | NaN, _ | _, NaN => NaN
  | Fin a, Fin b => Fin (a + b)
  | PInf, NInf | NInf, PInf => NaN
  | PInf, _ | _, PInf => PInf
  | NInf, _ | _, NInf => NInf
  end.

Definition s_sub (x y : scalar) : scalar := s_add x (s_neg y).

(** The sign of a real: [inleft (left _)] below zero, [inleft (right _)] at
    zero, [inright _] above. *)
Definition sign_of (r : R) : {r < 0} + {r = 0} + {0 < r} :=
  match total_order_T r 0 with
  | inleft (left H) => inleft (left H)
  | inleft (right H) => inleft (right H)
  | inright H => inright H
  end.

(** An infinity times a finite value. *)
Definition inf_times (pos : bool) (r : R) : scalar :=
  match sign_of r with
  | inleft (left _) => if pos then NInf else PInf
  | inleft (right _) => NaN
  | inright _ => if pos then PInf else NInf
  end.

Definition s_mul (x y : scalar) : scalar :=
  match x, y with
  | NaN, _ | _, NaN => NaN
  | Fin a, Fin b => Fin (a * b)
  | PInf, Fin b => inf_times true b
  | NInf, Fin b => inf_times false b
  | Fin a, PInf => inf_times true a
  | Fin a, NInf => inf_times false a
  | PInf, PInf | NInf, NInf => PInf
  | PInf, NInf | NInf, PInf => NInf
  end.

Definition s_div (x y : scalar) : scalar :=
  match x, y with
  | NaN, _ | _, NaN => NaN
  | Fin a, Fin b =>
      match sign_of b with
      | inleft (right _) =>
          (* division by zero: 0/0 is NaN, a/0 an infinity of the sign of a *)
          match sign_of a with
          | inleft (left _) => NInf
          | inleft (right _) => NaN
          | inright _ => PInf
          end
      | _ => Fin (a / b)
      end
  | Fin _, _ => Fin 0
  | PInf, Fin b => match sign_of b with inleft (left _) => NInf | _ => PInf end
  | NInf, Fin b => match sign_of b with inleft (left _) => PInf | _ => NInf end
  | _, _ => NaN
  end.

(** [torch.pow(x, exponent=2.0)] on one element. *)
Definition s_sq (x : scalar) : scalar :=
  match x with
  | Fin r => Fin (r * r)
  | PInf | NInf => PInf
  | NaN => NaN
  end.

(** [torch.abs] on one element. *)
Definition s_abs (x : scalar) : scalar :=
  match x with
  | Fin r => Fin (Rabs r)
  | PInf | NInf => PInf
  | NaN => NaN
  end.

(** [torch.sqrt] on one element. *)
Definition s_sqrt (x : scalar) : scalar :=
  match x with
  | Fin r => match sign_of r with
             | inleft (left _) => NaN
             | _ => Fin (sqrt r)
             end
  | PInf => PInf
  | NInf | NaN => NaN
  end.

Definition Rlog10 (r : R) : R := ln r / ln 10.

(** [torch.log10] on one element: minus infinity at zero, NaN below. *)
Definition s_log10 (x : scalar) : scalar :=
  match x with
  | Fin r => match sign_of r with
             | inleft (left _) => NaN
             | inleft (right _) => NInf
             | inright _ => Fin (Rlog10 r)
             end
  | PInf => PInf
  | NInf | NaN => NaN
  end.

(** ** The 32-bit format *)

(** The integer nearest to [x], the even one of the two when [x] is half way
    between them. *)
Definition round_half_even (x : R) : Z :=
  let n := Int_part x in
  match total_order_T (x - IZR n) (/ 2) with
  | inleft (left _) => n
  | inleft (right _) => if Z.even n then n else (n + 1)%Z
  | inright _ => (n + 1)%Z
  end.

(** The exponent of the spacing of the 32-bit numbers around [r]: 24 binary
    digits from the magnitude of [r] down, and never below 2^-149, the spacing
    of the smallest numbers of the format. *)
Definition ulp_exponent (r : R) : Z :=
  Z.max (Int_part (ln (Rabs r) / ln 2) - 23) (-149).

(** The multiple of the spacing that is nearest to [r]. *)
Definition round_float32 (r : R) : R :=
  if Req_dec_T r 0 then 0
  else
    let q := powerRZ 2 (ulp_exponent r) in
    IZR (round_half_even (r / q)) * q.

(** The conversion of an element to the 32-bit format: a finite value is
    rounded to the nearest number of the format, and is an infinity when that
    reaches 2^128; the infinities and NaN stay. *)
Definition to_float32 (x : scalar) : scalar :=
  match x with
  | Fin r =>
      let y := round_float32 r in
      if Rle_dec (powerRZ 2 128) y then PInf
      else if Rle_dec y (- powerRZ 2 128) then NInf
      else Fin y
  | _ => x
  end.

(** ** Exceptions and outcomes *)

Definition shape := list nat.

Inductive message : Type :=
  | shapes_dont_match (s_pred s_y : shape)
      (* "y_pred and y shapes dont match, received y_pred: [{}] and y: [{}]" *)
  | only_batch_dimension
      (* "either channel or spatial dimensions required, found only batch dimension" *)
  | math_domain_error
      (* raised by math.log10 *)
  | not_a_valid_reduction (s : string).
      (* raised by MetricReduction(reduction) on an unknown string *)

Inductive exception : Type :=
  | ValueError (m : message)
  | IndexError
  | ImportError (name : string) (module : string)
  | ModuleNotFoundError (module : string)
  | NameError (name : string).

(** What a call does: it returns, it raises, or it leaves the part of torch
    that is embedded here ([Unmodelled]: broadcasting of tensors of different
    shapes, reductions of tensors that are not batch by channel). *)
Inductive outcome (A : Type) : Type :=
  | Ok (a : A)
  | Raise (e : exception)
  | Unmodelled.
Arguments Ok {A} a.
Arguments Raise {A} e.
Arguments Unmodelled {A}.

Definition bind {A B : Type} (c : outcome A) (k : A -> outcome B) : outcome B :=
  match c with
  | Ok a => k a
  | Raise e => Raise e
  | Unmodelled => Unmodelled
  end.

Notation "x <- c ;; k" := (bind c (fun x => k))
  (at level 100, c at next level, right associativity).

(** ** Tensors and the torch operations the metrics use *)

(** A tensor: its shape and its elements in row-major order. *)
Record tensor : Type := mkTensor { t_shape : shape; t_data : list scalar }.

Definition numel (s : shape) : nat := fold_right Nat.mul 1%nat s.

Definition wf_tensor (t : tensor) : Prop :=
  length (t_data t) = numel (t_shape t).

Definition finite_tensor (t : tensor) : Prop := Forall is_finite (t_data t).

Definition shape_eq_dec (s1 s2 : shape) : {s1 = s2} + {s1 <> s2} :=
  List.list_eq_dec Nat.eq_dec s1 s2.

(** An elementwise function of one tensor ([torch.pow], [torch.abs],
    [torch.sqrt], [torch.log10], a scalar combined with a tensor). *)
Definition t_map (f : scalar -> scalar) (t : tensor) : tensor :=
  mkTensor (t_shape t) (map f (t_data t)).

Fixpoint zip_scalars (f : scalar -> scalar -> scalar) (l1 l2 : list scalar)
  : list scalar :=
  match l1, l2 with
  | x :: l1', y :: l2' => f x y :: zip_scalars f l1' l2'
  | _, _ => []
  end.

(** [a - b] on tensors of one shape.  On different shapes torch broadcasts or
    raises; the metrics check the shapes before they subtract. *)
Definition t_sub (a b : tensor) : outcome tensor :=
  if shape_eq_dec (t_shape a) (t_shape b)
  then Ok (mkTensor (t_shape a) (zip_scalars s_sub (t_data a) (t_data b)))
  else Unmodelled.

(** [torch.flatten(t, start_dim)]: the dimensions from [start_dim] on become
    one; there is no such dimension in a tensor of [start_dim] dimensions or
    fewer. *)
Definition flatten (start_dim : nat) (t : tensor) : outcome tensor :=
  if (start_dim <? length (t_shape t))%nat
  then Ok (mkTensor (firstn start_dim (t_shape t)
                       ++ [numel (skipn start_dim (t_shape t))])
                    (t_data t))
  else Raise IndexError.

Definition sum_list (l : list scalar) : scalar := fold_right s_add (Fin 0) l.

(** The mean of no element is 0/0, NaN. *)
Definition mean_list (l : list scalar) : scalar :=
  s_div (sum_list l) (Fin (INR (length l))).

(** Row [i] of the elements seen as rows of [n]. *)
Definition row (n : nat) (l : list scalar) (i : nat) : list scalar :=
  firstn n (skipn (i * n) l).

(** [torch.mean(t, dim=-1, keepdim=True)]: every run along the last
    dimension becomes its mean, and the last dimension becomes 1. *)
Definition mean_last_keepdim (t : tensor) : tensor :=
  match t_shape t with
  | [] => t
  | _ =>
      let n := List.last (t_shape t) 1%nat in
      let rows := numel (removelast (t_shape t)) in
      mkTensor (removelast (t_shape t) ++ [1%nat])
               (map (fun i => mean_list (row n (t_data t) i)) (seq 0 rows))
  end.

(** ** [monai/metrics/regression.py] *)

(** [compute_mean_error_metrics(y_pred, y, func)]. *)
Definition compute_mean_error_metrics (y_pred y : tensor)
    (func : scalar -> scalar) : outcome tensor :=
  d <- t_sub y y_pred ;;
  flat <- flatten 1 (t_map func d) ;;
  Ok (mean_last_keepdim flat).

(** Modelled from the spec: the enumeration [MetricReduction] of
    [monai.utils], whose source is not at hand; the seven modes of the data
    model, which are also the strings the docstrings of the metrics list. *)
Inductive MetricReduction : Type :=
  | NONE | MEAN | SUM | MEAN_BATCH | SUM_BATCH | MEAN_CHANNEL | SUM_CHANNEL.

(** The [reduction] argument: [Union[MetricReduction, str]]. *)
Inductive reduction_arg : Type :=
  | mode (m : MetricReduction)
  | mode_name (s : string).

Definition MetricReduction_of_string (s : string) : option MetricReduction :=
  if String.eqb s "none" then Some NONE
  else if String.eqb s "mean" then Some MEAN
  else if String.eqb s "sum" then Some SUM
  else if String.eqb s "mean_batch" then Some MEAN_BATCH
  else if String.eqb s "sum_batch" then Some SUM_BATCH
  else if String.eqb s "mean_channel" then Some MEAN_CHANNEL
  else if String.eqb s "sum_channel" then Some SUM_CHANNEL
  else None.

Definition not_nan (x : scalar) : scalar :=
  if isnan x then Fin 0 else Fin 1.

Definition drop_nans (l : list scalar) : list scalar :=
  List.filter (fun x => negb (isnan x)) l.

(** The mean of the elements that are not NaN, and how many they are. *)
Definition nanmean (l : list scalar) : scalar := mean_list (drop_nans l).
Definition count_not_nan (l : list scalar) : scalar :=
  Fin (INR (length (drop_nans l))).

(** Column [j] of the elements seen as rows of [n]. *)
Definition column (rows n : nat) (l : list scalar) (j : nat) : list scalar :=
  map (fun i => nth (i * n + j) l NaN) (seq 0 rows).

Definition scalar_tensor (x : scalar) : tensor := mkTensor [] [x].

(** Modelled from the spec: [do_metric_reduction] of [monai.metrics.utils],
    whose source is not at hand, after the section on batch reduction.
    [none] returns the tensor as it is, with 1 for every element that is not
    NaN; [mean] and [sum] reduce over all dimensions; [mean_batch] and
    [sum_batch] over the batch dimension, keeping the channels; [mean_channel]
    and [sum_channel] over the channel dimension, keeping the batch.  A mean
    ignores the NaNs; the number of elements that are not NaN comes with every
    result.  An unknown mode is an invalid configuration. *)
Definition do_metric_reduction (f : tensor) (reduction : reduction_arg)
  : outcome (tensor * tensor) :=
  let resolved :=
    match reduction with
    | mode m => Ok m
    | mode_name s =>
        match MetricReduction_of_string s with
        | Some m => Ok m
        | None => Raise (ValueError (not_a_valid_reduction s))
        end
    end in
  m <- resolved ;;
  match m with
  | NONE => Ok (f, t_map not_nan f)
  | MEAN => Ok (scalar_tensor (nanmean (t_data f)),
                scalar_tensor (count_not_nan (t_data f)))
  | SUM => Ok (scalar_tensor (sum_list (t_data f)),
               scalar_tensor (count_not_nan (t_data f)))
  | MEAN_BATCH | SUM_BATCH =>
      match t_shape f with
      | [b; c] =>
          let cols := map (column b c (t_data f)) (seq 0 c) in
          Ok (mkTensor [c] (map (match m with MEAN_BATCH => nanmean
                                            | _ => sum_list end) cols),
              mkTensor [c] (map count_not_nan cols))
      | _ => Unmodelled
      end
  | MEAN_CHANNEL | SUM_CHANNEL =>
      match t_shape f with
      | [b; c] =>
          let rows := map (row c (t_data f)) (seq 0 b) in
          Ok (mkTensor [b] (map (match m with MEAN_CHANNEL => nanmean
                                            | _ => sum_list end) rows),
              mkTensor [b] (map count_not_nan rows))
      | _ => Unmodelled
      end
  end.

(** The abstract class [RegressionMetric]: its configuration and the method
    its subclasses must implement. *)
Record RegressionMetric : Type := mkRegressionMetric {
  reduction : reduction_arg;
  _compute_metric : tensor -> tensor -> outcome tensor
}.

Definition _reduce (self : RegressionMetric) (f : tensor)
  : outcome (tensor * tensor) :=
  do_metric_reduction f (reduction self).

Definition _check_shape (y_pred y : tensor) : outcome unit :=
  if shape_eq_dec (t_shape y_pred) (t_shape y)
  then
    (* also check if there is at least one non-batch dimension *)
    if (length (t_shape y_pred) <? 2)%nat
    then Raise (ValueError only_batch_dimension)
    else Ok tt
  else Raise (ValueError (shapes_dont_match (t_shape y_pred) (t_shape y))).

Definition __call__ (self : RegressionMetric) (y_pred y : tensor)
  : outcome (tensor * tensor) :=
  _ <- _check_shape y_pred y ;;
  out <- _compute_metric self y_pred y ;;
  _reduce self out.

(** [y_pred.float()]: every element becomes a number of the 32-bit
    format. *)
Definition float (t : tensor) : tensor := t_map to_float32 t.

Definition sq_func : scalar -> scalar := s_sq.
Definition abs_func : scalar -> scalar := s_abs.

Definition MSEMetric_compute_metric (y_pred y : tensor) : outcome tensor :=
  let y_pred := float y_pred in
  let y := float y in
  mse_out <- compute_mean_error_metrics y_pred y sq_func ;;
  Ok mse_out.

Definition MAEMetric_compute_metric (y_pred y : tensor) : outcome tensor :=
  let y_pred := float y_pred in
  let y := float y in
  mae_out <- compute_mean_error_metrics y_pred y abs_func ;;
  Ok mae_out.

Definition RMSEMetric_compute_metric (y_pred y : tensor) : outcome tensor :=
  let y_pred := float y_pred in
  let y := float y in
  mse_out <- compute_mean_error_metrics y_pred y sq_func ;;
  let rmse_out := t_map s_sqrt mse_out in
  Ok rmse_out.

(** [math.log10] of Python: a domain error at zero and below. *)
Definition math_log10 (x : scalar) : outcome scalar :=
  match x with
  | Fin r => match sign_of r with
             | inright _ => Ok (Fin (Rlog10 r))
             | _ => Raise (ValueError math_domain_error)
             end
  | PInf => Ok PInf
  | NInf => Raise (ValueError math_domain_error)
  | NaN => Ok NaN
  end.

Definition PSNRMetric_compute_metric (max_val : scalar) (y_pred y : tensor)
  : outcome tensor :=
  let y_pred := float y_pred in
  let y := float y in
  mse_out <- compute_mean_error_metrics y_pred y sq_func ;;
  l <- math_log10 max_val ;;
  let psnr_val :=
    t_map (fun m => s_sub (s_mul (Fin 20) l) (s_mul (Fin 10) (s_log10 m)))
          mse_out in
  Ok psnr_val.

Definition MSEMetric (reduction : reduction_arg) : RegressionMetric :=
  mkRegressionMetric reduction MSEMetric_compute_metric.

Definition MAEMetric (reduction : reduction_arg) : RegressionMetric :=
  mkRegressionMetric reduction MAEMetric_compute_metric.

Definition RMSEMetric (reduction : reduction_arg) : RegressionMetric :=
  mkRegressionMetric reduction RMSEMetric_compute_metric.

Definition PSNRMetric (max_val : scalar) (reduction : reduction_arg)
  : RegressionMetric :=
  mkRegressionMetric reduction (PSNRMetric_compute_metric max_val).

(** ** [monai/handlers/regression_metrics.py] *)

Section Handlers.

(** What the engine holds in [state.output] after an iteration. *)
Context {Output : Type}.

(** Modelled from the spec: the class [IterationMetric] of
    [monai.handlers.iteration_metric], whose source is not at hand: what its
    constructor receives from the handlers below. *)
Record IterationMetric : Type := mkIterationMetric {
  metric_fn : RegressionMetric;
  output_transform : Output -> tensor * tensor;
  device : string;
  save_details : bool
}.

(** The constructors of the handlers.  The source gives their arguments
    defaults (the identity transform, the device "cpu", details saved); here
    the caller passes them. *)
Definition MeanSquaredError (output_transform : Output -> tensor * tensor)
    (device : string) (save_details : bool) : IterationMetric :=
  let metric_fn := MSEMetric (mode NONE) in
  mkIterationMetric metric_fn output_transform device save_details.

Definition MeanAbsoluteError (output_transform : Output -> tensor * tensor)
    (device : string) (save_details : bool) : IterationMetric :=
  let metric_fn := MAEMetric (mode NONE) in
  mkIterationMetric metric_fn output_transform device save_details.

Definition RootMeanSquaredError (output_transform : Output -> tensor * tensor)
    (device : string) (save_details : bool) : IterationMetric :=
  let metric_fn := RMSEMetric (mode NONE) in
  mkIterationMetric metric_fn output_transform device save_details.

Definition PeakSignalToNoiseRatio (max_val : scalar)
    (output_transform : Output -> tensor * tensor)
    (device : string) (save_details : bool) : IterationMetric :=
  let metric_fn := PSNRMetric max_val (mode NONE) in
  mkIterationMetric metric_fn output_transform device save_details.

(** The state of an accumulator during a run: the results of the iterations
    so far, and the detail log of the engine, keyed by metric name. *)
Record accumulator : Type := mkAccumulator {
  _scores : list tensor;
  metric_details : gmap string (list scalar)
}.

Definition reset : accumulator := mkAccumulator [] ∅.

(** Modelled from the spec: one iteration of [IterationMetric], after the
    section on the iteration adapter: the transform extracts the pair from
    the output of the engine, the metric is called, the tensor it returns is
    added to the running sequence, and if details are saved the value of
    every sample is added to the log under the name of the metric. *)
Definition iteration_completed (self : IterationMetric) (name : string)
    (output : Output) (st : accumulator) : outcome accumulator :=
  let '(y_pred, y) := output_transform self output in
  r <- __call__ (metric_fn self) y_pred y ;;
  let score := fst r in
  Ok (mkAccumulator
        (_scores st ++ [score])
        (if save_details self
         then <[name := default [] (metric_details st !! name)
                          ++ t_data score]> (metric_details st)
         else metric_details st)).

End Handlers.

Arguments IterationMetric Output : clear implicits.

(** ** Loading the two modules *)

(** The statements at the top level of a module that bind names.  Of a
    class or function definition the model follows the names only: the base
    classes are looked up and the name is bound; what the body of a class,
    the defaults, the annotations and the decorators evaluate is left out. *)
Inductive stmt : Type :=
  | Import (module : string)
  | FromImport (module : string) (names : list string)
  | ClassDef (name : string) (bases : list string)
  | FunctionDef (name : string).

(** A loaded module: the names it has, and whether it is a package (a
    package may still find a missing name as a submodule). *)
Record module_obj : Type := mkModule {
  attrs : gset string;
  is_package : bool
}.

(** What the execution of a module body leaves: the names bound so far, and
    the exception that stopped it, if one did. *)
Definition exec_result : Type := gset string * option exception.

Definition regression_py : list stmt :=
  [ Import "math";
    FromImport "abc" ["ABC"; "abstractmethod"];
    FromImport "functools" ["partial"];
    FromImport "typing" ["Any"; "Union"];
    Import "torch";
    FromImport "monai.metrics.utils" ["do_metric_reduction"];
    FromImport "monai.utils" ["MetricReduction"];
    ClassDef "RegressionMetric" ["ABC"];
    ClassDef "MSEMetric" ["RegressionMetric"];
    ClassDef "MAEMetric" ["RegressionMetric"];
    ClassDef "RMSEMetric" ["RegressionMetric"];
    ClassDef "PSNRMetric" ["RegressionMetric"];
    FunctionDef "compute_mean_error_metrics" ].

Definition regression_metrics_py : list stmt :=
  [ FromImport "typing" ["Callable"; "Union"];
    Import "torch";
    FromImport "monai.handlers.iteration_metric" ["IterationMetric"];
    FromImport "monai.metrics.regression"
      ["MAEMetric"; "MSEMetric"; "PSNRMetric"; "RMSEMetric";
       "MSEMetricTraining"; "MAEMetricTraining"];
    FromImport "monai.utils" ["MetricReduction"];
    ClassDef "MeanSquaredError" ["IterationMetric"];
    ClassDef "MeanSquaredErrorTraining" ["IterationMetric"];
    ClassDef "MeanAbsoluteError" ["IterationMetric"];
    ClassDef "MeanAbsoluteErrorTraining" ["IterationMetric"];
    ClassDef "RootMeanSquaredError" ["IterationMetric"];
    ClassDef "PeakSignalToNoiseRatio" ["IterationMetric"] ].

Definition handler_classes : list string :=
  [ "MeanSquaredError"; "MeanSquaredErrorTraining"; "MeanAbsoluteError";
    "MeanAbsoluteErrorTraining"; "RootMeanSquaredError";
    "PeakSignalToNoiseRatio" ].

Section Loading.

(** How a module is found by name: its object, or the exception of its
    own loading. *)
Variable importer : string -> exception + module_obj.

(** [from module import names]: the names are taken and bound one after
    the other; a name the module does not have is looked for as a submodule
    when the module is a package. *)
Fixpoint import_from (module : string) (m : module_obj) (ns : gset string)
    (names : list string) : exec_result :=
  match names with
  | [] => (ns, None)
  | n :: rest =>
      if decide (n ∈ attrs m)
      then import_from module m ({[ n ]} ∪ ns) rest
      else
        if is_package m
        then match importer (module +:+ "." +:+ n) with
             | inr _ => import_from module m ({[ n ]} ∪ ns) rest
             | inl _ => (ns, Some (ImportError n module))
             end
        else (ns, Some (ImportError n module))
  end.

Definition exec_stmt (ns : gset string) (s : stmt) : exec_result :=
  match s with
  | Import module =>
      match importer module with
      | inr _ => ({[ module ]} ∪ ns, None)
      | inl e => (ns, Some e)
      end
  | FromImport module names =>
      match importer module with
      | inr m => import_from module m ns names
      | inl e => (ns, Some e)
      end
  | ClassDef name bases =>
      match List.find (fun b => bool_decide (b ∉ ns)) bases with
      | Some b => (ns, Some (NameError b))
      | None => ({[ name ]} ∪ ns, None)
      end
  | FunctionDef name => ({[ name ]} ∪ ns, None)
  end.

Fixpoint exec_stmts (ns : gset string) (body : list stmt) : exec_result :=
  match body with
  | [] => (ns, None)
  | s :: rest =>
      match exec_stmt ns s with
      | (ns', None) => exec_stmts ns' rest
      | stopped => stopped
      end
  end.

End Loading.

(** The modules other than the two at hand, as the interpreter finds them:
    a module that is not there cannot be imported. *)
Definition find_module (env : gmap string module_obj) (name : string)
  : exception + module_obj :=
  match env !! name with
  | Some m => inr m
  | None => inl (ModuleNotFoundError name)
  end.

(** Loading [monai.metrics.regression]: a module, not a package. *)
Definition load_regression (env : gmap string module_obj)
  : exception + module_obj :=
  match exec_stmts (find_module env) ∅ regression_py with
  | (ns, None) => inr (mkModule ns false)
  | (_, Some e) => inl e
  end.

Definition import_module (env : gmap string module_obj) (name : string)
  : exception + module_obj :=
  if String.eqb name "monai.metrics.regression"
  then load_regression env
  else find_module env name.

(** Loading [monai.handlers.regression_metrics]. *)
Definition load_regression_metrics (env : gmap string module_obj)
  : exec_result :=
  exec_stmts (import_module env) ∅ regression_metrics_py.

(** The names a statement binds when it succeeds, and those of a body. *)
Definition bound_names (s : stmt) : list string :=
  match s with
  | Import module => [module]
  | FromImport _ names => names
  | ClassDef name _ => [name]
  | FunctionDef name => [name]
  end.

Definition body_names (body : list stmt) : list string :=
  flat_map bound_names body.

(** An interpreter in which every module the two at hand import, other than
    [monai.metrics.regression] itself, is found and has the names asked of
    it. *)
Definition installed : gmap string module_obj :=
  list_to_map
    [ ("math", mkModule ∅ false);
      ("abc", mkModule (list_to_set ["ABC"; "abstractmethod"]) false);
      ("functools", mkModule (list_to_set ["partial"]) false);
      ("typing", mkModule (list_to_set ["Any"; "Callable"; "Union"]) false);
      ("torch", mkModule ∅ true);
      ("monai.metrics.utils", mkModule (list_to_set ["do_metric_reduction"]) false);
      ("monai.utils", mkModule (list_to_set ["MetricReduction"]) true);
      ("monai.handlers.iteration_metric",
       mkModule (list_to_set ["IterationMetric"]) false) ].

(** ** The contract of the computation per sample, in the words of the
       specification *)

(** Tensors of a given shape with one value everywhere. *)
Definition full (s : shape) (x : scalar) : tensor :=
  mkTensor s (repeat x (numel s)).

(** The tensor of shape (1, 0): one sample, no element. *)
Definition empty_sample : tensor := mkTensor [1; 0]%nat [].

(** The tensors of the worked scenario: shape (1, 1, 2, 2), the prediction 1
    everywhere and the target 3 everywhere. *)
Definition scenario_P : tensor := full [1; 1; 2; 2]%nat (Fin 1).
Definition scenario_Y : tensor := full [1; 1; 2; 2]%nat (Fin 3).

Definition batch_size (t : tensor) : nat := hd 0%nat (t_shape t).

(** The number of elements of one sample: the product of the dimensions
    after the batch dimension (channel and spatial). *)
Definition sample_size (t : tensor) : nat := numel (tl (t_shape t)).

(** Element [j] of sample [b], the elements of a sample counted in row-major
    order. *)
Definition element (t : tensor) (b j : nat) : scalar :=
  nth (b * sample_size t + j) (t_data t) NaN.

(** For the sample [b]: the mean of [f (Y - P)] over all the elements of the
    sample. *)
Definition per_sample_mean (f : scalar -> scalar) (P Y : tensor) (b : nat)
  : scalar :=
  s_div (sum_list (map (fun j => f (s_sub (element Y b j) (element P b j)))
                       (seq 0 (sample_size P))))
        (Fin (INR (sample_size P))).

(** ** Values that are not negative *)

(** A value that is neither a negative number nor minus infinity: a number
    that is zero or more, plus infinity, or NaN. *)
Definition not_negative (x : scalar) : Prop :=
  match x with
  | Fin r => 0 <= r
  | PInf | NaN => True
  | NInf => False
  end.

(** * Properties *)

(** ** Arithmetic of the elements *)

(** Closes a decidable closed goal by evaluation. *)
Ltac decide_now := apply (bool_decide_unpack _); vm_compute; exact I.

(** Splits on the sign of a real and closes the impossible cases. *)
Ltac by_sign r := destruct (sign_of r) as [[?|?]|?]; try lra; try reflexivity.

Lemma s_div_fin (a b : R) : b <> 0 -> s_div (Fin a) (Fin b) = Fin (a / b).
Proof. intros Hb. unfold s_div. by_sign b. Qed.

Lemma s_div_zero_zero : s_div (Fin 0) (Fin 0) = NaN.
Proof. unfold s_div. by_sign 0. Qed.

Lemma s_sqrt_fin (r : R) : 0 <= r -> s_sqrt (Fin r) = Fin (sqrt r).
Proof. intros Hr. unfold s_sqrt. by_sign r. Qed.

Lemma s_log10_fin (r : R) : 0 < r -> s_log10 (Fin r) = Fin (Rlog10 r).
Proof. intros Hr. unfold s_log10. by_sign r. Qed.

Lemma s_log10_zero : s_log10 (Fin 0) = NInf.
Proof. unfold s_log10. by_sign 0. Qed.

Lemma math_log10_fin (r : R) : 0 < r -> math_log10 (Fin r) = Ok (Fin (Rlog10 r)).
Proof. intros Hr. unfold math_log10. by_sign r. Qed.

Lemma math_log10_positive (x : scalar) :
  is_positive x -> exists l, math_log10 x = Ok l /\ (l = PInf \/ is_finite l).
Proof.
  destruct x as [r| | |]; simpl; intros H; try contradiction.
  - exists (Fin (Rlog10 r)). split; [by_sign r | right; exact I].
  - exists PInf. split; [reflexivity | left; reflexivity].
Qed.

Lemma math_log10_not_positive (r : R) :
  r <= 0 -> math_log10 (Fin r) = Raise (ValueError math_domain_error).
Proof. intros Hr. unfold math_log10. by_sign r. Qed.

Lemma s_sq_sub_sym (a b : scalar) : s_sq (s_sub a b) = s_sq (s_sub b a).
Proof. destruct a, b; simpl; try reflexivity. f_equal. ring. Qed.

Lemma s_abs_sub_sym (a b : scalar) : s_abs (s_sub a b) = s_abs (s_sub b a).
Proof.
  destruct a as [x| | |], b as [y| | |]; simpl; try reflexivity.
  f_equal. replace (x + - y) with (- (y + - x)) by ring. apply Rabs_Ropp.
Qed.

Lemma s_sq_sub_self (a : scalar) : is_finite a -> s_sq (s_sub a a) = Fin 0.
Proof. destruct a; simpl; try contradiction. intros _. f_equal. ring. Qed.

Lemma s_abs_sub_self (a : scalar) : is_finite a -> s_abs (s_sub a a) = Fin 0.
Proof.
  destruct a as [x| | |]; simpl; try contradiction. intros _. f_equal.
  replace (x + - x) with 0 by ring. apply Rabs_R0.
Qed.

(** ** The conversion to the 32-bit format *)

Lemma ln_2_pos : 0 < ln 2.
Proof. rewrite <- ln_1. apply ln_increasing; lra. Qed.

Lemma ln_powerRZ_2 (k : Z) : ln (powerRZ 2 k) = IZR k * ln 2.
Proof. rewrite powerRZ_Rpower by lra. unfold Rpower. apply ln_exp. Qed.

Lemma powerRZ_2_mono (a b : Z) : (a <= b)%Z -> powerRZ 2 a <= powerRZ 2 b.
Proof.
  intros H. rewrite !powerRZ_Rpower by lra.
  apply Rle_Rpower; [lra | apply IZR_le; exact H].
Qed.

(** The binary order of magnitude of a real. *)
Lemma Int_part_log2 (r : R) (k : Z) :
  powerRZ 2 k <= r < powerRZ 2 (k + 1) -> Int_part (ln r / ln 2) = k.
Proof.
  intros [Hlo Hhi]. symmetry. apply Int_part_spec.
  pose proof ln_2_pos as H2.
  pose proof (powerRZ_lt 2 k ltac:(lra)) as Hk.
  assert (H1 : IZR k * ln 2 <= ln r).
  { rewrite <- ln_powerRZ_2. destruct Hlo as [Hlo | <-]; [| lra].
    left. apply ln_increasing; assumption. }
  assert (H3 : ln r < (IZR k + 1) * ln 2).
  { rewrite <- plus_IZR, <- ln_powerRZ_2. apply ln_increasing; lra. }
  split.
  - apply Rmult_lt_reg_r with (ln 2); [exact H2 |].
    unfold Rdiv, Rminus. rewrite Rmult_plus_distr_r, Rmult_assoc, Rinv_l by lra.
    lra.
  - apply Rmult_le_reg_r with (ln 2); [exact H2 |].
    unfold Rdiv. rewrite Rmult_assoc, Rinv_l by lra. lra.
Qed.

Lemma round_half_even_IZR (z : Z) : round_half_even (IZR z) = z.
Proof.
  unfold round_half_even.
  assert (H : Int_part (IZR z) = z) by (symmetry; apply Int_part_spec; lra).
  rewrite H.
  destruct (total_order_T (IZR z - IZR z) (/ 2)) as [[_ | He] | Hg];
    [reflexivity | lra | lra].
Qed.

(** A number with 24 binary digits, at an exponent the format has, is not
    changed by the rounding. *)
Lemma round_float32_exact (m k : Z) :
  (2 ^ 23 <= m < 2 ^ 24)%Z -> (-126 <= k)%Z ->
  round_float32 (IZR m * powerRZ 2 (k - 23)) = IZR m * powerRZ 2 (k - 23).
Proof.
  intros [Hlo Hhi] Hk.
  pose proof (powerRZ_lt 2 (k - 23) ltac:(lra)) as Hq.
  assert (H23 : powerRZ 2 23 = IZR (2 ^ 23)) by (simpl; lra).
  assert (H24 : powerRZ 2 24 = IZR (2 ^ 24)) by (simpl; lra).
  assert (Hm : 0 < IZR m) by (apply IZR_lt; lia).
  assert (Hr : 0 < IZR m * powerRZ 2 (k - 23))
    by (apply Rmult_lt_0_compat; assumption).
  unfold round_float32, ulp_exponent.
  destruct (Req_dec_T _ 0) as [H0 | _]; [lra |].
  rewrite Rabs_pos_eq by lra.
  rewrite (Int_part_log2 _ k).
  - rewrite Z.max_l by lia.
    replace (IZR m * powerRZ 2 (k - 23) / powerRZ 2 (k - 23)) with (IZR m)
      by (field; lra).
    rewrite round_half_even_IZR. reflexivity.
  - split.
    + replace k with (23 + (k - 23))%Z at 1 by lia.
      rewrite powerRZ_add, H23 by lra.
      apply Rmult_le_compat_r; [lra | apply IZR_le; exact Hlo].
    + replace (k + 1)%Z with (24 + (k - 23))%Z by lia.
      rewrite powerRZ_add, H24 by lra.
      apply Rmult_lt_compat_r; [lra | apply IZR_lt; exact Hhi].
Qed.

Lemma to_float32_exact (m k : Z) :
  (2 ^ 23 <= m < 2 ^ 24)%Z -> (-126 <= k <= 127)%Z ->
  to_float32 (Fin (IZR m * powerRZ 2 (k - 23)))
  = Fin (IZR m * powerRZ 2 (k - 23)).
Proof.
  intros Hm [Hk1 Hk2]. unfold to_float32.
  rewrite round_float32_exact by assumption.
  pose proof (powerRZ_lt 2 (k - 23) ltac:(lra)) as Hq.
  assert (H24 : powerRZ 2 24 = IZR (2 ^ 24)) by (simpl; lra).
  assert (Hpos : 0 < IZR m) by (apply IZR_lt; lia).
  assert (Hr : 0 < IZR m * powerRZ 2 (k - 23))
    by (apply Rmult_lt_0_compat; assumption).
  assert (Hup : IZR m * powerRZ 2 (k - 23) < powerRZ 2 128).
  { apply Rlt_le_trans with (powerRZ 2 (k + 1)).
    - replace (k + 1)%Z with (24 + (k - 23))%Z by lia.
      rewrite powerRZ_add, H24 by lra.
      apply Rmult_lt_compat_r; [lra | apply IZR_lt; lia].
    - apply powerRZ_2_mono. lia. }
  destruct (Rle_dec _ _) as [H | _]; [lra |].
  destruct (Rle_dec _ _) as [H | _]; [| reflexivity].
  pose proof (powerRZ_lt 2 128 ltac:(lra)). lra.
Qed.

Lemma to_float32_0 : to_float32 (Fin 0) = Fin 0.
Proof.
  unfold to_float32, round_float32.
  destruct (Req_dec_T 0 0) as [_ | H0]; [| lra].
  pose proof (powerRZ_lt 2 128 ltac:(lra)).
  destruct (Rle_dec _ _) as [H' | _]; [lra |].
  destruct (Rle_dec _ _) as [H' | _]; [lra | reflexivity].
Qed.

Lemma to_float32_1 : to_float32 (Fin 1) = Fin 1.
Proof.
  replace 1 with (IZR 8388608 * powerRZ 2 (0 - 23)) by (simpl; lra).
  apply to_float32_exact; lia.
Qed.

Lemma to_float32_3 : to_float32 (Fin 3) = Fin 3.
Proof.
  replace 3 with (IZR 12582912 * powerRZ 2 (1 - 23)) by (simpl; lra).
  apply to_float32_exact; lia.
Qed.

(** 2^128 is beyond the numbers of the format. *)
Lemma to_float32_overflow : to_float32 (Fin (powerRZ 2 128)) = PInf.
Proof.
  assert (H : powerRZ 2 128 = IZR (2 ^ 23) * powerRZ 2 (128 - 23)).
  { change (128 - 23)%Z with 105%Z.
    replace 128%Z with (23 + 105)%Z by lia. rewrite powerRZ_add by lra.
    f_equal. simpl; lra. }
  assert (Hr : round_float32 (powerRZ 2 128) = powerRZ 2 128).
  { rewrite H. apply round_float32_exact; lia. }
  unfold to_float32. rewrite Hr.
  destruct (Rle_dec _ _) as [_ | Hn]; [reflexivity | lra].
Qed.

Lemma wf_float (t : tensor) : wf_tensor t -> wf_tensor (float t).
Proof.
  unfold wf_tensor, float, t_map. cbn [t_shape t_data].
  rewrite length_map. trivial.
Qed.

Lemma element_float (t : tensor) (b j : nat) :
  element (float t) b j = to_float32 (element t b j).
Proof.
  unfold element, float, t_map, sample_size. cbn [t_shape t_data].
  apply (map_nth to_float32 (t_data t) NaN).
Qed.

(** A tensor with one value everywhere that the format has. *)
Lemma float_full (s : shape) (x : scalar) :
  to_float32 x = x -> float (full s x) = full s x.
Proof.
  intros Hx. unfold float, full, t_map. cbn [t_shape t_data]. f_equal.
  induction (numel s) as [|n IH]; [reflexivity |].
  cbn [repeat map]. rewrite Hx, IH. reflexivity.
Qed.

Lemma float_scenario : float scenario_P = scenario_P /\ float scenario_Y = scenario_Y.
Proof.
  split; apply float_full; [apply to_float32_1 | apply to_float32_3].
Qed.

(** ** Shape validation *)

Lemma check_shape_mismatch (y_pred y : tensor) :
  t_shape y_pred <> t_shape y ->
  _check_shape y_pred y
  = Raise (ValueError (shapes_dont_match (t_shape y_pred) (t_shape y))).
Proof.
  intros Hne. unfold _check_shape.
  destruct (shape_eq_dec (t_shape y_pred) (t_shape y)); [contradiction | reflexivity].
Qed.

Lemma check_shape_few_dims (y_pred y : tensor) :
  t_shape y_pred = t_shape y ->
  (length (t_shape y_pred) < 2)%nat ->
  _check_shape y_pred y = Raise (ValueError only_batch_dimension).
Proof.
  intros Heq Hlen. unfold _check_shape.
  destruct (shape_eq_dec (t_shape y_pred) (t_shape y)); [| contradiction].
  apply Nat.ltb_lt in Hlen. rewrite Hlen. reflexivity.
Qed.

Lemma check_shape_ok (y_pred y : tensor) :
  t_shape y_pred = t_shape y ->
  (2 <= length (t_shape y_pred))%nat ->
  _check_shape y_pred y = Ok tt.
Proof.
  intros Heq Hlen. unfold _check_shape.
  destruct (shape_eq_dec (t_shape y_pred) (t_shape y)); [| contradiction].
  destruct (Nat.ltb_spec (length (t_shape y_pred)) 2); [lia | reflexivity].
Qed.

(** C1: a call of any regression metric raises the shape-mismatch error when
    the shapes of [y_pred] and [y] differ, and the error on the number of
    dimensions when the shapes are equal and have fewer than two dimensions.
    The metric is any instance of the abstract class, whatever its
    [_compute_metric] does: the error comes before the computation. *)
Theorem call_validates_before_computing
    (self : RegressionMetric) (y_pred y : tensor) :
  (t_shape y_pred <> t_shape y ->
   __call__ self y_pred y
   = Raise (ValueError (shapes_dont_match (t_shape y_pred) (t_shape y))))
  /\
  (t_shape y_pred = t_shape y ->
   (length (t_shape y_pred) < 2)%nat ->
   __call__ self y_pred y = Raise (ValueError only_batch_dimension)).
Proof.
  split.
  - intros Hne. unfold __call__. rewrite check_shape_mismatch by assumption.
    reflexivity.
  - intros Heq Hlen. unfold __call__. rewrite check_shape_few_dims by assumption.
    reflexivity.
Qed.

Lemma call_validates_before_computing_witness :
  __call__ (PSNRMetric (Fin 0) (mode MEAN))
           (full [2; 3; 4]%nat (Fin 1)) (full [2; 3; 5]%nat (Fin 3))
  = Raise (ValueError (shapes_dont_match [2; 3; 4]%nat [2; 3; 5]%nat))
  /\
  __call__ (MSEMetric (mode MEAN)) (full [4%nat] (Fin 1)) (full [4%nat] (Fin 3))
  = Raise (ValueError only_batch_dimension).
Proof.
  split.
  - apply (proj1 (call_validates_before_computing
                    (PSNRMetric (Fin 0) (mode MEAN))
                    (full [2; 3; 4]%nat (Fin 1)) (full [2; 3; 5]%nat (Fin 3)))).
    simpl. discriminate.
  - apply (proj2 (call_validates_before_computing
                    (MSEMetric (mode MEAN))
                    (full [4%nat] (Fin 1)) (full [4%nat] (Fin 3)))).
    + reflexivity.
    + simpl. lia.
Defined.

(** C10: when the shapes differ and both have fewer than two dimensions, the
    error is the shape-mismatch one: the shapes are compared before the
    dimensions are counted, in the call of every metric. *)
Theorem mismatch_reported_before_dimensions
    (self : RegressionMetric) (y_pred y : tensor) :
  t_shape y_pred <> t_shape y ->
  (length (t_shape y_pred) < 2)%nat ->
  (length (t_shape y) < 2)%nat ->
  _check_shape y_pred y
  = Raise (ValueError (shapes_dont_match (t_shape y_pred) (t_shape y)))
  /\ __call__ self y_pred y
     = Raise (ValueError (shapes_dont_match (t_shape y_pred) (t_shape y)))
  /\ __call__ self y_pred y <> Raise (ValueError only_batch_dimension).
Proof.
  intros Hne _ _.
  assert (Hc : __call__ self y_pred y
               = Raise (ValueError (shapes_dont_match (t_shape y_pred) (t_shape y)))).
  { unfold __call__. rewrite check_shape_mismatch by assumption. reflexivity. }
  split; [apply check_shape_mismatch; assumption |].
  split; [exact Hc |]. rewrite Hc. discriminate.
Qed.

Lemma mismatch_reported_before_dimensions_witness :
  __call__ (MAEMetric (mode MEAN)) (full [3%nat] (Fin 1)) (full [4%nat] (Fin 3))
  = Raise (ValueError (shapes_dont_match [3%nat] [4%nat])).
Proof.
  apply (mismatch_reported_before_dimensions
           (MAEMetric (mode MEAN)) (full [3%nat] (Fin 1)) (full [4%nat] (Fin 3))).
  - simpl. discriminate.
  - simpl. lia.
  - simpl. lia.
Defined.

(** ** The shared computation per sample *)

Lemma zip_scalars_length (f : scalar -> scalar -> scalar) (l1 l2 : list scalar) :
  length (zip_scalars f l1 l2) = Nat.min (length l1) (length l2).
Proof.
  revert l2. induction l1 as [|x l1 IH]; intros [|y l2]; simpl; auto.
Qed.

Lemma zip_scalars_nth (f : scalar -> scalar -> scalar) (l1 l2 : list scalar)
    (i : nat) (d : scalar) :
  (i < length l1)%nat -> (i < length l2)%nat ->
  nth i (zip_scalars f l1 l2) d = f (nth i l1 d) (nth i l2 d).
Proof.
  revert l2 i. induction l1 as [|x l1 IH]; intros [|y l2] [|i]; simpl;
    intros H1 H2; try lia; auto.
  apply IH; lia.
Qed.

(** A run of [n] elements from position [k] on, element by element. *)
Lemma firstn_skipn_nth (l : list scalar) (k n : nat) (d : scalar) :
  (k + n <= length l)%nat ->
  firstn n (skipn k l) = map (fun j => nth (k + j)%nat l d) (seq 0 n).
Proof.
  revert k l. induction n as [|n IH]; intros k l Hlen.
  - reflexivity.
  - destruct (skipn k l) as [|x tl] eqn:Hs.
    + assert (length (skipn k l) = 0%nat) by (rewrite Hs; reflexivity).
      rewrite length_skipn in H. lia.
    + simpl. f_equal.
      * replace (k + 0)%nat with k by lia.
        rewrite <- (firstn_skipn k l) at 1.
        rewrite app_nth2; rewrite length_firstn; [| lia].
        replace (k - Nat.min k (length l))%nat with 0%nat by lia.
        rewrite Hs. reflexivity.
      * rewrite <- seq_shift, map_map.
        replace tl with (skipn (S k) l).
        { rewrite (IH (S k) l) by lia. apply map_ext. intros j. f_equal. lia. }
        replace (S k) with (1 + k)%nat by lia.
        rewrite <- skipn_skipn, Hs. reflexivity.
Qed.

(** What the helper returns on tensors of one shape with a batch dimension
    and at least one more. *)
Lemma compute_mean_error_metrics_value
    (y_pred y : tensor) (func : scalar -> scalar) (B : nat) (rest : shape) :
  t_shape y_pred = B :: rest -> rest <> [] -> t_shape y = t_shape y_pred ->
  compute_mean_error_metrics y_pred y func
  = Ok (mkTensor [B; 1%nat]
          (map (fun i => mean_list
                           (row (numel rest)
                                (map func (zip_scalars s_sub (t_data y) (t_data y_pred)))
                                i))
               (seq 0 B))).
Proof.
  intros Hp Hrest Hy. unfold compute_mean_error_metrics, t_sub.
  destruct (shape_eq_dec (t_shape y) (t_shape y_pred)) as [_|Hne];
    [| contradiction].
  cbn [bind]. unfold flatten, t_map. cbn [t_shape t_data].
  rewrite Hy, Hp. destruct rest as [|c rest']; [contradiction |].
  cbn [length Nat.ltb Nat.leb bind firstn skipn app].
  unfold mean_last_keepdim. cbn [t_shape t_data List.last removelast app numel fold_right].
  rewrite Nat.mul_1_r. reflexivity.
Qed.

Lemma nth_map_seq (g : nat -> scalar) (n i : nat) (d : scalar) :
  (i < n)%nat -> nth i (map g (seq 0 n)) d = g i.
Proof.
  intros Hi. rewrite (nth_indep _ d (g 0%nat)) by (rewrite length_map, length_seq; lia).
  rewrite map_nth, seq_nth by lia. reflexivity.
Qed.

Lemma nth_map_in_range (f : scalar -> scalar) (l : list scalar) (i : nat)
    (d : scalar) :
  (i < length l)%nat -> nth i (map f l) d = f (nth i l d).
Proof.
  intros Hi. rewrite (nth_indep _ d (f d)) by (rewrite length_map; lia).
  apply map_nth.
Qed.

Lemma row_in_range (n B b : nat) (l : list scalar) :
  length l = (B * n)%nat -> (b < B)%nat ->
  row n l b = map (fun j => nth (b * n + j)%nat l NaN) (seq 0 n).
Proof.
  intros Hl Hb. unfold row. apply firstn_skipn_nth. nia.
Qed.

Lemma shape_with_two_dims (s : shape) :
  (2 <= length s)%nat -> exists B rest, s = B :: rest /\ rest <> [].
Proof.
  destruct s as [|B [|c rest]]; simpl; intros H; try lia.
  exists B, (c :: rest). split; [reflexivity | discriminate].
Qed.

(** C2: on prediction and target tensors of one shape with at least two
    dimensions, and for every elementwise function [f] (the square and the
    absolute value among them), the shared computation returns a tensor of
    shape batch size by 1 whose element for the sample [b] is the mean of
    [f (Y - P)] over all the elements of that sample. *)
Theorem compute_mean_error_metrics_per_sample
    (f : scalar -> scalar) (P Y : tensor) :
  wf_tensor P -> wf_tensor Y ->
  t_shape P = t_shape Y ->
  (2 <= length (t_shape P))%nat ->
  exists out,
    compute_mean_error_metrics P Y f = Ok out
    /\ t_shape out = [batch_size P; 1%nat]
    /\ wf_tensor out
    /\ forall b, (b < batch_size P)%nat ->
         nth b (t_data out) NaN = per_sample_mean f P Y b.
Proof.
  intros HwP HwY Hsh Hdim.
  destruct (shape_with_two_dims _ Hdim) as (B & rest & HP & Hrest).
  eexists. split; [| split; [| split]].
  - apply (compute_mean_error_metrics_value P Y f B rest); congruence.
  - unfold batch_size. rewrite HP. reflexivity.
  - unfold wf_tensor. cbn [t_data t_shape numel fold_right].
    rewrite length_map, length_seq. lia.
  - unfold batch_size. rewrite HP. cbn [hd t_data]. intros b Hb.
    rewrite nth_map_seq by assumption.
    unfold wf_tensor in HwP, HwY. rewrite <- Hsh in HwY. rewrite HP in HwP, HwY.
    cbn [numel fold_right] in HwP, HwY. fold (numel rest) in HwP, HwY.
    assert (Hz : length (zip_scalars s_sub (t_data Y) (t_data P))
                 = (B * numel rest)%nat).
    { rewrite zip_scalars_length. lia. }
    rewrite (row_in_range (numel rest) B b) by (rewrite ?length_map; assumption).
    unfold mean_list, per_sample_mean, element, sample_size.
    rewrite <- Hsh, HP. cbn [tl]. rewrite length_map, length_seq.
    f_equal. f_equal. apply map_ext_in. intros j Hj. apply in_seq in Hj.
    rewrite nth_map_in_range by (rewrite Hz; nia).
    rewrite zip_scalars_nth by nia. reflexivity.
Qed.

Lemma compute_mean_error_metrics_per_sample_witness :
  exists out,
    compute_mean_error_metrics (full [1; 1; 2; 2]%nat (Fin 1))
                               (full [1; 1; 2; 2]%nat (Fin 3)) sq_func = Ok out
    /\ t_shape out = [1; 1]%nat
    /\ wf_tensor out
    /\ forall b, (b < 1)%nat ->
         nth b (t_data out) NaN
         = per_sample_mean sq_func (full [1; 1; 2; 2]%nat (Fin 1))
                           (full [1; 1; 2; 2]%nat (Fin 3)) b.
Proof.
  apply (compute_mean_error_metrics_per_sample sq_func
           (full [1; 1; 2; 2]%nat (Fin 1)) (full [1; 1; 2; 2]%nat (Fin 3))).
  - reflexivity.
  - reflexivity.
  - reflexivity.
  - simpl. lia.
Defined.

(** ** Relations between the metrics *)

(** C3: on tensors of one shape with at least two dimensions, the RMSE value
    of every sample is the square root of the MSE value of that sample on the
    same inputs. *)
Theorem rmse_is_sqrt_of_mse (r1 r2 : reduction_arg) (P Y : tensor) :
  t_shape P = t_shape Y ->
  (2 <= length (t_shape P))%nat ->
  exists mse rmse,
    _compute_metric (MSEMetric r1) P Y = Ok mse
    /\ _compute_metric (RMSEMetric r2) P Y = Ok rmse
    /\ t_shape rmse = t_shape mse
    /\ length (t_data mse) = batch_size P
    /\ length (t_data rmse) = batch_size P
    /\ forall b, (b < batch_size P)%nat ->
         nth b (t_data rmse) NaN = s_sqrt (nth b (t_data mse) NaN).
Proof.
  intros Hsh Hdim.
  destruct (shape_with_two_dims _ Hdim) as (B & rest & HP & Hrest).
  pose proof (compute_mean_error_metrics_value (float P) (float Y) sq_func
                B rest HP Hrest (eq_sym Hsh)) as Hv.
  cbn [_compute_metric MSEMetric RMSEMetric].
  unfold MSEMetric_compute_metric, RMSEMetric_compute_metric.
  rewrite Hv. cbn [bind]. do 2 eexists. split; [reflexivity |].
  split; [reflexivity |]. unfold batch_size. rewrite HP.
  cbn [t_map t_shape t_data hd]. rewrite !length_map, length_seq.
  repeat split; try reflexivity.
  intros b Hb. apply nth_map_in_range. rewrite length_map, length_seq. assumption.
Qed.

Lemma rmse_is_sqrt_of_mse_witness :
  exists mse rmse,
    _compute_metric (MSEMetric (mode MEAN)) (full [1; 1; 2; 2]%nat (Fin 1))
                    (full [1; 1; 2; 2]%nat (Fin 3)) = Ok mse
    /\ _compute_metric (RMSEMetric (mode MEAN)) (full [1; 1; 2; 2]%nat (Fin 1))
                       (full [1; 1; 2; 2]%nat (Fin 3)) = Ok rmse
    /\ t_shape rmse = t_shape mse
    /\ length (t_data mse) = 1%nat
    /\ length (t_data rmse) = 1%nat
    /\ forall b, (b < 1)%nat ->
         nth b (t_data rmse) NaN = s_sqrt (nth b (t_data mse) NaN).
Proof.
  apply (rmse_is_sqrt_of_mse (mode MEAN) (mode MEAN)
           (full [1; 1; 2; 2]%nat (Fin 1)) (full [1; 1; 2; 2]%nat (Fin 3))).
  - reflexivity.
  - simpl. lia.
Defined.

Lemma map_zip_sub_sym (f : scalar -> scalar) (l1 l2 : list scalar) :
  (forall a b, f (s_sub a b) = f (s_sub b a)) ->
  map f (zip_scalars s_sub l1 l2) = map f (zip_scalars s_sub l2 l1).
Proof.
  intros Hf. revert l2. induction l1 as [|x l1 IH]; intros [|y l2]; simpl; auto.
  rewrite Hf, IH. reflexivity.
Qed.

Lemma compute_mean_error_metrics_sym (f : scalar -> scalar) (P Y : tensor) :
  (forall a b, f (s_sub a b) = f (s_sub b a)) ->
  t_shape P = t_shape Y ->
  (2 <= length (t_shape P))%nat ->
  exists out,
    compute_mean_error_metrics P Y f = Ok out
    /\ compute_mean_error_metrics Y P f = Ok out.
Proof.
  intros Hf Hsh Hdim.
  destruct (shape_with_two_dims _ Hdim) as (B & rest & HP & Hrest).
  eexists. split.
  - apply (compute_mean_error_metrics_value P Y f B rest); congruence.
  - rewrite (compute_mean_error_metrics_value Y P f B rest) by congruence.
    rewrite (map_zip_sub_sym f (t_data P) (t_data Y) Hf). reflexivity.
Qed.

(** C5: on tensors of one shape with at least two dimensions, the MSE values
    per sample of (P, Y) are those of (Y, P), and so are the MAE values. *)
Theorem mse_mae_symmetric (r : reduction_arg) (P Y : tensor) :
  t_shape P = t_shape Y ->
  (2 <= length (t_shape P))%nat ->
  (exists mse, _compute_metric (MSEMetric r) P Y = Ok mse
               /\ _compute_metric (MSEMetric r) Y P = Ok mse)
  /\
  (exists mae, _compute_metric (MAEMetric r) P Y = Ok mae
               /\ _compute_metric (MAEMetric r) Y P = Ok mae).
Proof.
  intros Hsh Hdim. cbn [_compute_metric MSEMetric MAEMetric].
  unfold MSEMetric_compute_metric, MAEMetric_compute_metric. split.
  - destruct (compute_mean_error_metrics_sym sq_func (float P) (float Y)
                s_sq_sub_sym Hsh Hdim) as (out & H1 & H2).
    exists out. rewrite H1, H2. split; reflexivity.
  - destruct (compute_mean_error_metrics_sym abs_func (float P) (float Y)
                s_abs_sub_sym Hsh Hdim) as (out & H1 & H2).
    exists out. rewrite H1, H2. split; reflexivity.
Qed.

Lemma mse_mae_symmetric_witness :
  (exists mse,
      _compute_metric (MSEMetric (mode MEAN)) (full [1; 1; 2; 2]%nat (Fin 1))
                      (full [1; 1; 2; 2]%nat (Fin 3)) = Ok mse
      /\ _compute_metric (MSEMetric (mode MEAN)) (full [1; 1; 2; 2]%nat (Fin 3))
                         (full [1; 1; 2; 2]%nat (Fin 1)) = Ok mse)
  /\
  (exists mae,
      _compute_metric (MAEMetric (mode MEAN)) (full [1; 1; 2; 2]%nat (Fin 1))
                      (full [1; 1; 2; 2]%nat (Fin 3)) = Ok mae
      /\ _compute_metric (MAEMetric (mode MEAN)) (full [1; 1; 2; 2]%nat (Fin 3))
                         (full [1; 1; 2; 2]%nat (Fin 1)) = Ok mae).
Proof.
  apply (mse_mae_symmetric (mode MEAN)
           (full [1; 1; 2; 2]%nat (Fin 1)) (full [1; 1; 2; 2]%nat (Fin 3))).
  - reflexivity.
  - simpl. lia.
Defined.

(** ** A tensor against itself *)

Lemma sum_list_zeros (l : list scalar) :
  Forall (eq (Fin 0)) l -> sum_list l = Fin 0.
Proof.
  induction 1 as [|x l Hx _ IH]; [reflexivity |].
  unfold sum_list in *. cbn [fold_right]. rewrite IH, <- Hx. cbn [s_add].
  f_equal. lra.
Qed.

Lemma mean_list_zeros (l : list scalar) :
  Forall (eq (Fin 0)) l -> l <> [] -> mean_list l = Fin 0.
Proof.
  intros Hz Hne. unfold mean_list. rewrite sum_list_zeros by assumption.
  rewrite s_div_fin.
  - f_equal. unfold Rdiv. apply Rmult_0_l.
  - apply not_0_INR. destruct l; [contradiction | discriminate].
Qed.

Lemma map_zip_sub_self (f : scalar -> scalar) (l : list scalar) :
  (forall a, is_finite a -> f (s_sub a a) = Fin 0) ->
  Forall is_finite l ->
  Forall (eq (Fin 0)) (map f (zip_scalars s_sub l l)).
Proof.
  intros Hf. induction 1 as [|x l Hx _ IH]; cbn [zip_scalars map]; constructor.
  - symmetry. apply Hf. assumption.
  - exact IH.
Qed.

Lemma Forall_row (Q : scalar -> Prop) (n i : nat) (l : list scalar) :
  Forall Q l -> Forall Q (row n l i).
Proof.
  intros H. unfold row. apply Forall_take, Forall_drop. exact H.
Qed.

(** On a tensor of finite values whose samples are not empty, an error
    function that is zero on [a - a] has mean zero on every sample. *)
Lemma self_error_is_zero (f : scalar -> scalar) (P : tensor) :
  (forall a, is_finite a -> f (s_sub a a) = Fin 0) ->
  wf_tensor P -> finite_tensor P ->
  (2 <= length (t_shape P))%nat ->
  (0 < sample_size P)%nat ->
  exists out,
    compute_mean_error_metrics P P f = Ok out
    /\ t_shape out = [batch_size P; 1%nat]
    /\ length (t_data out) = batch_size P
    /\ forall b, (b < batch_size P)%nat -> nth b (t_data out) NaN = Fin 0.
Proof.
  intros Hf Hwf Hfin Hdim Hn.
  destruct (shape_with_two_dims _ Hdim) as (B & rest & HP & Hrest).
  eexists. split; [| split; [| split]].
  - apply (compute_mean_error_metrics_value P P f B rest); congruence.
  - unfold batch_size. rewrite HP. reflexivity.
  - unfold batch_size. rewrite HP. cbn [t_data hd].
    rewrite length_map, length_seq. reflexivity.
  - unfold batch_size. rewrite HP. cbn [hd t_data]. intros b Hb.
    rewrite nth_map_seq by assumption.
    unfold sample_size in Hn. rewrite HP in Hn. cbn [tl] in Hn.
    unfold wf_tensor in Hwf. rewrite HP in Hwf.
    cbn [numel fold_right] in Hwf. fold (numel rest) in Hwf.
    apply mean_list_zeros.
    + apply Forall_row. apply map_zip_sub_self; assumption.
    + intros Hnil.
      assert (Hlen : length (row (numel rest)
                                 (map f (zip_scalars s_sub (t_data P) (t_data P))) b)
                     = numel rest).
      { rewrite (row_in_range (numel rest) B b)
          by (rewrite ?length_map, ?zip_scalars_length; lia || assumption).
        rewrite length_map, length_seq. reflexivity. }
      rewrite Hnil in Hlen. cbn [length] in Hlen. lia.
Qed.

(** C6, as the code has it: for every tensor [P] with at least two
    dimensions and at least one element per sample, whose values are finite
    once converted to the 32-bit format, the MSE value of (P, P) is zero for
    every sample, and so is the MAE value.  (Without an element per sample
    the mean is the mean of nothing, which is NaN; a value that the
    conversion takes to an infinity gives infinity minus infinity, NaN as
    well.) *)
Theorem self_error_is_zero_on_samples (r : reduction_arg) (P : tensor) :
  wf_tensor P -> finite_tensor (float P) ->
  (2 <= length (t_shape P))%nat ->
  (0 < sample_size P)%nat ->
  (exists mse,
      _compute_metric (MSEMetric r) P P = Ok mse
      /\ length (t_data mse) = batch_size P
      /\ forall b, (b < batch_size P)%nat -> nth b (t_data mse) NaN = Fin 0)
  /\
  (exists mae,
      _compute_metric (MAEMetric r) P P = Ok mae
      /\ length (t_data mae) = batch_size P
      /\ forall b, (b < batch_size P)%nat -> nth b (t_data mae) NaN = Fin 0).
Proof.
  intros Hwf Hfin Hdim Hn. cbn [_compute_metric MSEMetric MAEMetric].
  unfold MSEMetric_compute_metric, MAEMetric_compute_metric. split.
  - destruct (self_error_is_zero sq_func (float P) s_sq_sub_self
                (wf_float P Hwf) Hfin Hdim Hn) as (out & Hout & _ & Hlen & Hz).
    exists out. rewrite Hout. split; [reflexivity |].
    split; [exact Hlen | exact Hz].
  - destruct (self_error_is_zero abs_func (float P) s_abs_sub_self
                (wf_float P Hwf) Hfin Hdim Hn) as (out & Hout & _ & Hlen & Hz).
    exists out. rewrite Hout. split; [reflexivity |].
    split; [exact Hlen | exact Hz].
Qed.

Lemma self_error_is_zero_on_samples_witness :
  (exists mse,
      _compute_metric (MSEMetric (mode MEAN)) (full [1; 1; 2; 2]%nat (Fin 1))
                      (full [1; 1; 2; 2]%nat (Fin 1)) = Ok mse
      /\ length (t_data mse) = 1%nat
      /\ forall b, (b < 1)%nat -> nth b (t_data mse) NaN = Fin 0)
  /\
  (exists mae,
      _compute_metric (MAEMetric (mode MEAN)) (full [1; 1; 2; 2]%nat (Fin 1))
                      (full [1; 1; 2; 2]%nat (Fin 1)) = Ok mae
      /\ length (t_data mae) = 1%nat
      /\ forall b, (b < 1)%nat -> nth b (t_data mae) NaN = Fin 0).
Proof.
  apply (self_error_is_zero_on_samples (mode MEAN) (full [1; 1; 2; 2]%nat (Fin 1))).
  - reflexivity.
  - rewrite float_full by apply to_float32_1. repeat constructor.
  - simpl. lia.
  - unfold sample_size. simpl. lia.
Defined.

Lemma mean_of_nothing : mean_list [] = NaN.
Proof. unfold mean_list. cbn [sum_list fold_right length INR]. apply s_div_zero_zero. Qed.

(** C6, as stated, fails on the tensor of shape (1, 0): it is well formed, of
    two dimensions and of finite values, and the MSE and MAE values of its
    one sample against itself are NaN, not zero. *)
Lemma self_error_of_empty_samples_is_nan :
  wf_tensor empty_sample
  /\ finite_tensor empty_sample
  /\ (2 <= length (t_shape empty_sample))%nat
  /\ _compute_metric (MSEMetric (mode MEAN)) empty_sample empty_sample
     = Ok (mkTensor [1; 1]%nat [NaN])
  /\ _compute_metric (MAEMetric (mode MEAN)) empty_sample empty_sample
     = Ok (mkTensor [1; 1]%nat [NaN])
  /\ nth 0 (t_data (mkTensor [1; 1]%nat [NaN])) NaN <> Fin 0.
Proof.
  split; [reflexivity |]. split; [constructor |]. split; [simpl; lia |].
  cbn [_compute_metric MSEMetric MAEMetric].
  unfold MSEMetric_compute_metric, MAEMetric_compute_metric.
  change (float empty_sample) with empty_sample.
  rewrite (compute_mean_error_metrics_value empty_sample empty_sample sq_func 1 [0%nat])
    by (reflexivity || discriminate).
  rewrite (compute_mean_error_metrics_value empty_sample empty_sample abs_func 1 [0%nat])
    by (reflexivity || discriminate).
  cbn [bind seq map row empty_sample t_data zip_scalars firstn skipn numel
       fold_right Nat.mul].
  rewrite mean_of_nothing. repeat split. cbn. discriminate.
Qed.

(** The same beyond the 32-bit format: 2^128 is a finite number that the
    conversion takes to plus infinity, and the difference of the tensor with
    itself is infinity minus infinity. *)
Lemma self_error_beyond_float32_is_nan :
  finite_tensor (mkTensor [1; 1]%nat [Fin (powerRZ 2 128)])
  /\ _compute_metric (MSEMetric (mode MEAN))
       (mkTensor [1; 1]%nat [Fin (powerRZ 2 128)])
       (mkTensor [1; 1]%nat [Fin (powerRZ 2 128)])
     = Ok (mkTensor [1; 1]%nat [NaN])
  /\ _compute_metric (MAEMetric (mode MEAN))
       (mkTensor [1; 1]%nat [Fin (powerRZ 2 128)])
       (mkTensor [1; 1]%nat [Fin (powerRZ 2 128)])
     = Ok (mkTensor [1; 1]%nat [NaN]).
Proof.
  split; [repeat constructor |].
  assert (Hf : float (mkTensor [1; 1]%nat [Fin (powerRZ 2 128)])
               = mkTensor [1; 1]%nat [PInf]).
  { unfold float, t_map. cbn [t_shape t_data map].
    rewrite to_float32_overflow. reflexivity. }
  cbn [_compute_metric MSEMetric MAEMetric].
  unfold MSEMetric_compute_metric, MAEMetric_compute_metric. rewrite Hf.
  rewrite (compute_mean_error_metrics_value _ _ sq_func 1 [1%nat])
    by (reflexivity || discriminate).
  rewrite (compute_mean_error_metrics_value _ _ abs_func 1 [1%nat])
    by (reflexivity || discriminate).
  split; reflexivity.
Qed.

(** ** Peak signal to noise ratio *)

Lemma ten_times_minus_infinity : s_mul (Fin 10) NInf = NInf.
Proof. cbn [s_mul]. unfold inf_times. by_sign 10. Qed.

Lemma twenty_times_log (l : scalar) :
  l = PInf \/ is_finite l ->
  s_mul (Fin 20) l = PInf \/ is_finite (s_mul (Fin 20) l).
Proof.
  intros [-> | Hl].
  - left. cbn [s_mul]. unfold inf_times. by_sign 20.
  - right. destruct l; try contradiction. exact I.
Qed.

(** The value for a sample whose mean squared error is zero. *)
Lemma psnr_of_zero_error (l : scalar) :
  l = PInf \/ is_finite l ->
  s_sub (s_mul (Fin 20) l) (s_mul (Fin 10) (s_log10 (Fin 0))) = PInf.
Proof.
  intros Hl. rewrite s_log10_zero, ten_times_minus_infinity.
  destruct (twenty_times_log l Hl) as [-> | Hfin]; [reflexivity |].
  destruct (s_mul (Fin 20) l); try contradiction. reflexivity.
Qed.

(** C4, as the code has it: for every positive [max_val] and tensors of one
    shape with at least two dimensions, PSNR returns, for every sample,
    20 log10(max_val) minus 10 log10 of the MSE value of that sample; a sample
    whose MSE value is zero has the value plus infinity (the call returns,
    nothing is raised and nothing is clamped), as every sample has when the
    prediction is the target, with at least one element per sample and values
    that are finite once converted to the 32-bit format. *)
Theorem psnr_per_sample (max_val : scalar) (r1 r2 : reduction_arg)
    (P Y : tensor) :
  is_positive max_val ->
  t_shape P = t_shape Y ->
  (2 <= length (t_shape P))%nat ->
  exists mse psnr l,
    _compute_metric (MSEMetric r1) P Y = Ok mse
    /\ math_log10 max_val = Ok l
    /\ _compute_metric (PSNRMetric max_val r2) P Y = Ok psnr
    /\ t_shape psnr = t_shape mse
    /\ length (t_data mse) = batch_size P
    /\ length (t_data psnr) = batch_size P
    /\ (forall b, (b < batch_size P)%nat ->
          nth b (t_data psnr) NaN
          = s_sub (s_mul (Fin 20) l)
                  (s_mul (Fin 10) (s_log10 (nth b (t_data mse) NaN))))
    /\ (forall b v m, (b < batch_size P)%nat ->
          max_val = Fin v -> nth b (t_data mse) NaN = Fin m -> 0 < m ->
          nth b (t_data psnr) NaN = Fin (20 * Rlog10 v - 10 * Rlog10 m))
    /\ (forall b, (b < batch_size P)%nat ->
          nth b (t_data mse) NaN = Fin 0 -> nth b (t_data psnr) NaN = PInf)
    /\ (Y = P -> wf_tensor P -> finite_tensor (float P) ->
        (0 < sample_size P)%nat ->
        forall b, (b < batch_size P)%nat -> nth b (t_data psnr) NaN = PInf).
Proof.
  intros Hmax Hsh Hdim.
  destruct (shape_with_two_dims _ Hdim) as (B & rest & HP & Hrest).
  pose proof (compute_mean_error_metrics_value (float P) (float Y) sq_func
                B rest HP Hrest (eq_sym Hsh)) as Hv.
  destruct (math_log10_positive max_val Hmax) as (l & Hl & Hlpos).
  cbn [_compute_metric MSEMetric PSNRMetric].
  unfold MSEMetric_compute_metric, PSNRMetric_compute_metric.
  rewrite Hv, Hl. cbn [bind]. do 3 eexists.
  split; [reflexivity |]. split; [reflexivity |]. split; [reflexivity |].
  unfold batch_size. rewrite HP. cbn [t_map t_shape t_data hd].
  rewrite !length_map, length_seq.
  split; [reflexivity |]. split; [reflexivity |]. split; [reflexivity |].
  assert (Hnth : forall b, (b < B)%nat ->
            nth b (map (fun m => s_sub (s_mul (Fin 20) l) (s_mul (Fin 10) (s_log10 m)))
                       (map (fun i => mean_list
                               (row (numel rest)
                                    (map sq_func
                                         (zip_scalars s_sub (t_data (float Y))
                                                      (t_data (float P)))) i))
                            (seq 0 B))) NaN
            = s_sub (s_mul (Fin 20) l)
                (s_mul (Fin 10)
                   (s_log10 (nth b (map (fun i => mean_list
                               (row (numel rest)
                                    (map sq_func
                                         (zip_scalars s_sub (t_data (float Y))
                                                      (t_data (float P)))) i))
                            (seq 0 B)) NaN)))).
  { intros b Hb. apply nth_map_in_range. rewrite length_map, length_seq. exact Hb. }
  split; [exact Hnth |]. split; [| split].
  - intros b v m Hb Hv' Hm Hmpos. rewrite Hnth by assumption. rewrite Hm.
    subst max_val. cbn [is_positive] in Hmax.
    rewrite math_log10_fin in Hl by assumption. injection Hl as <-.
    rewrite s_log10_fin by assumption. cbn [s_mul s_sub s_neg s_add].
    f_equal; ring.
  - intros b Hb Hz. rewrite Hnth by assumption. rewrite Hz.
    apply psnr_of_zero_error. exact Hlpos.
  - intros -> Hwf Hfin Hn b Hb. rewrite Hnth by assumption.
    destruct (self_error_is_zero sq_func (float P) s_sq_sub_self
                (wf_float P Hwf) Hfin Hdim Hn) as (out & Hout & _ & _ & Hz).
    rewrite Hv in Hout. injection Hout as <-.
    change (batch_size (float P)) with (batch_size P) in Hz.
    unfold batch_size in Hz. rewrite HP in Hz. cbn [hd t_data] in Hz.
    rewrite Hz by assumption. apply psnr_of_zero_error. exact Hlpos.
Qed.

Lemma psnr_per_sample_witness :
  exists mse psnr l,
    _compute_metric (MSEMetric (mode MEAN)) (full [1; 1; 2; 2]%nat (Fin 1))
                    (full [1; 1; 2; 2]%nat (Fin 1)) = Ok mse
    /\ math_log10 (Fin 255) = Ok l
    /\ _compute_metric (PSNRMetric (Fin 255) (mode MEAN))
                       (full [1; 1; 2; 2]%nat (Fin 1))
                       (full [1; 1; 2; 2]%nat (Fin 1)) = Ok psnr
    /\ nth 0 (t_data psnr) NaN = PInf.
Proof.
  destruct (psnr_per_sample (Fin 255) (mode MEAN) (mode MEAN)
              (full [1; 1; 2; 2]%nat (Fin 1)) (full [1; 1; 2; 2]%nat (Fin 1)))
    as (mse & psnr & l & Hmse & Hl & Hpsnr & _ & _ & _ & _ & _ & _ & Hself).
  - simpl. lra.
  - reflexivity.
  - simpl. lia.
  - exists mse, psnr, l. repeat split; try assumption.
    apply Hself.
    + reflexivity.
    + reflexivity.
    + rewrite float_full by apply to_float32_1. repeat constructor.
    + unfold sample_size. simpl. lia.
    + unfold batch_size. simpl. lia.
Defined.

(** C4, as stated, fails in two ways for a tensor against itself.  With
    [max_val] zero there is no value at all: [math.log10] raises its domain
    error.  And on the tensor of shape (1, 0), with [max_val] 255, the value
    of the one sample is NaN, not plus infinity. *)
Lemma psnr_of_self_is_not_always_infinite :
  (2 <= length (t_shape scenario_P))%nat
  /\ _compute_metric (PSNRMetric (Fin 0) (mode MEAN)) scenario_P scenario_P
     = Raise (ValueError math_domain_error)
  /\ (2 <= length (t_shape empty_sample))%nat
  /\ _compute_metric (PSNRMetric (Fin 255) (mode MEAN)) empty_sample empty_sample
     = Ok (mkTensor [1; 1]%nat [NaN])
  /\ nth 0 (t_data (mkTensor [1; 1]%nat [NaN])) NaN <> PInf.
Proof.
  split; [simpl; lia |]. split; [| split; [simpl; lia | split]].
  - cbn [_compute_metric PSNRMetric]. unfold PSNRMetric_compute_metric.
    rewrite (proj1 float_scenario).
    rewrite (compute_mean_error_metrics_value scenario_P scenario_P sq_func 1
               [1; 2; 2]%nat) by (reflexivity || discriminate).
    cbn [bind]. rewrite math_log10_not_positive by lra. reflexivity.
  - cbn [_compute_metric PSNRMetric]. unfold PSNRMetric_compute_metric.
    change (float empty_sample) with empty_sample.
    rewrite (compute_mean_error_metrics_value empty_sample empty_sample sq_func
               1 [0%nat]) by (reflexivity || discriminate).
    rewrite math_log10_fin by lra.
    cbn [bind seq map row empty_sample t_data zip_scalars firstn skipn numel
         fold_right Nat.mul].
    rewrite mean_of_nothing. reflexivity.
  - cbn. discriminate.
Qed.

(** ** The worked scenario *)

Lemma mean_list_four (a : R) :
  mean_list [Fin a; Fin a; Fin a; Fin a] = Fin a.
Proof.
  unfold mean_list. cbn [sum_list fold_right s_add length].
  rewrite s_div_fin by (cbn [INR]; lra). f_equal. cbn [INR]. lra.
Qed.

Lemma scenario_per_sample (f : scalar -> scalar) (a : R) :
  f (s_sub (Fin 3) (Fin 1)) = Fin a ->
  compute_mean_error_metrics scenario_P scenario_Y f
  = Ok (mkTensor [1; 1]%nat [Fin a]).
Proof.
  intros Hf.
  rewrite (compute_mean_error_metrics_value scenario_P scenario_Y f 1
             [1; 2; 2]%nat) by (reflexivity || discriminate).
  cbn [seq map row scenario_P scenario_Y full t_data numel fold_right Nat.mul
       Nat.add repeat zip_scalars firstn skipn].
  rewrite Hf, mean_list_four. reflexivity.
Qed.

(** The mean reduction of one finite value. *)
Lemma reduce_mean_single (s : shape) (x : R) :
  do_metric_reduction (mkTensor s [Fin x]) (mode MEAN)
  = Ok (scalar_tensor (Fin x), scalar_tensor (Fin 1)).
Proof.
  unfold do_metric_reduction. cbn [bind t_data]. unfold nanmean, count_not_nan.
  cbn [drop_nans List.filter isnan negb length]. unfold mean_list.
  cbn [sum_list fold_right s_add length].
  rewrite s_div_fin by (cbn [INR]; lra). cbn [INR].
  do 3 f_equal. f_equal. lra.
Qed.

(** The reductions of the values 1, 2, 3 of a batch of three samples. *)
Example reduce_none_of_three :
  do_metric_reduction (mkTensor [3; 1]%nat [Fin 1; Fin 2; Fin 3]) (mode NONE)
  = Ok (mkTensor [3; 1]%nat [Fin 1; Fin 2; Fin 3],
        mkTensor [3; 1]%nat [Fin 1; Fin 1; Fin 1]).
Proof. reflexivity. Qed.

Example reduce_mean_of_three :
  do_metric_reduction (mkTensor [3; 1]%nat [Fin 1; Fin 2; Fin 3]) (mode MEAN)
  = Ok (scalar_tensor (Fin 2), scalar_tensor (Fin 3)).
Proof.
  unfold do_metric_reduction. cbn [bind t_data]. unfold nanmean, count_not_nan.
  cbn [drop_nans List.filter isnan negb length]. unfold mean_list.
  cbn [sum_list fold_right s_add length].
  rewrite s_div_fin by (cbn [INR]; lra). cbn [INR].
  do 2 f_equal; f_equal; f_equal; lra.
Qed.

Example reduce_unknown_mode (f : tensor) :
  do_metric_reduction f (mode_name "median")
  = Raise (ValueError (not_a_valid_reduction "median")).
Proof. reflexivity. Qed.

Example reduce_mode_by_name (f : tensor) :
  do_metric_reduction f (mode_name "none") = do_metric_reduction f (mode NONE).
Proof. reflexivity. Qed.

Lemma scenario_check_shape : _check_shape scenario_P scenario_Y = Ok tt.
Proof. apply check_shape_ok; [reflexivity | simpl; lia]. Qed.

Lemma ln_10_pos : 0 < ln 10.
Proof. rewrite <- ln_1. apply ln_increasing; lra. Qed.

(** A comparison of products of powers of integers, read on logarithms. *)
Lemma ln_powers_lt (a b c : Z) (n m k : nat) :
  (0 < a)%Z -> (0 < b)%Z -> (0 < c)%Z ->
  (a ^ Z.of_nat n * b ^ Z.of_nat m < c ^ Z.of_nat k)%Z ->
  INR n * ln (IZR a) + INR m * ln (IZR b) < INR k * ln (IZR c).
Proof.
  intros Ha Hb Hc Hlt.
  assert (Ha' : 0 < IZR a) by (apply IZR_lt; assumption).
  assert (Hb' : 0 < IZR b) by (apply IZR_lt; assumption).
  assert (Hc' : 0 < IZR c) by (apply IZR_lt; assumption).
  rewrite <- !ln_pow by assumption.
  rewrite <- ln_mult by (apply pow_lt; assumption).
  apply ln_increasing.
  - apply Rmult_lt_0_compat; apply pow_lt; assumption.
  - rewrite !pow_IZR, <- mult_IZR. apply IZR_lt. exact Hlt.
Qed.

Lemma ln_powers_gt (a b c : Z) (n m k : nat) :
  (0 < a)%Z -> (0 < b)%Z -> (0 < c)%Z ->
  (c ^ Z.of_nat k < a ^ Z.of_nat n * b ^ Z.of_nat m)%Z ->
  INR k * ln (IZR c) < INR n * ln (IZR a) + INR m * ln (IZR b).
Proof.
  intros Ha Hb Hc Hlt.
  assert (Ha' : 0 < IZR a) by (apply IZR_lt; assumption).
  assert (Hb' : 0 < IZR b) by (apply IZR_lt; assumption).
  assert (Hc' : 0 < IZR c) by (apply IZR_lt; assumption).
  rewrite <- !ln_pow by assumption.
  rewrite <- ln_mult by (apply pow_lt; assumption).
  apply ln_increasing.
  - apply pow_lt; assumption.
  - rewrite !pow_IZR, <- mult_IZR. apply IZR_lt. exact Hlt.
Qed.

(** 20 log10(255) - 10 log10(4) lies between 42.11 and 42.12. *)
Lemma scenario_psnr_bounds :
  42.11 < 20 * Rlog10 255 - 10 * Rlog10 4 < 42.12.
Proof.
  pose proof ln_10_pos as HT.
  assert (Hlo : INR 4211 * ln 10 + INR 1000 * ln 4 < INR 2000 * ln 255).
  { apply (ln_powers_lt 10 4 255 4211 1000 2000);
      [lia | lia | lia | apply Z.ltb_lt; vm_compute; reflexivity]. }
  assert (Hhi : INR 2000 * ln 255 < INR 4212 * ln 10 + INR 1000 * ln 4).
  { apply (ln_powers_gt 10 4 255 4212 1000 2000);
      [lia | lia | lia | apply Z.ltb_lt; vm_compute; reflexivity]. }
  rewrite !INR_IZR_INZ in Hlo, Hhi.
  change (Z.of_nat 4211) with 4211%Z in Hlo.
  change (Z.of_nat 4212) with 4212%Z in Hhi.
  change (Z.of_nat 1000) with 1000%Z in Hlo, Hhi.
  change (Z.of_nat 2000) with 2000%Z in Hlo, Hhi.
  unfold Rlog10.
  replace (20 * (ln 255 / ln 10) - 10 * (ln 4 / ln 10))
    with ((20 * ln 255 - 10 * ln 4) / ln 10) by (field; lra).
  assert (Hq : (20 * ln 255 - 10 * ln 4) / ln 10 * ln 10
               = 20 * ln 255 - 10 * ln 4) by (field; lra).
  split; apply Rmult_lt_reg_r with (ln 10); try exact HT; rewrite Hq; lra.
Qed.

Lemma scenario_square : sq_func (s_sub (Fin 3) (Fin 1)) = Fin 4.
Proof. cbn. f_equal. lra. Qed.

Lemma scenario_absolute : abs_func (s_sub (Fin 3) (Fin 1)) = Fin 2.
Proof. cbn. rewrite Rabs_pos_eq by lra. f_equal. lra. Qed.

Lemma scenario_root : s_sqrt (Fin 4) = Fin 2.
Proof.
  rewrite s_sqrt_fin by lra. f_equal.
  replace 4 with (2 * 2) by lra. apply sqrt_square. lra.
Qed.

Lemma scenario_ratio :
  s_sub (s_mul (Fin 20) (Fin (Rlog10 255))) (s_mul (Fin 10) (s_log10 (Fin 4)))
  = Fin (20 * Rlog10 255 - 10 * Rlog10 4).
Proof. rewrite s_log10_fin by lra. reflexivity. Qed.

Lemma scenario_mse_call :
  __call__ (MSEMetric (mode MEAN)) scenario_P scenario_Y
  = Ok (scalar_tensor (Fin 4), scalar_tensor (Fin 1)).
Proof.
  unfold __call__. rewrite scenario_check_shape.
  cbn [bind _compute_metric MSEMetric]. unfold MSEMetric_compute_metric.
  rewrite (proj1 float_scenario), (proj2 float_scenario).
  rewrite (scenario_per_sample sq_func 4 scenario_square). cbn [bind].
  apply reduce_mean_single.
Qed.

Lemma scenario_mae_call :
  __call__ (MAEMetric (mode MEAN)) scenario_P scenario_Y
  = Ok (scalar_tensor (Fin 2), scalar_tensor (Fin 1)).
Proof.
  unfold __call__. rewrite scenario_check_shape.
  cbn [bind _compute_metric MAEMetric]. unfold MAEMetric_compute_metric.
  rewrite (proj1 float_scenario), (proj2 float_scenario).
  rewrite (scenario_per_sample abs_func 2 scenario_absolute). cbn [bind].
  apply reduce_mean_single.
Qed.

Lemma scenario_rmse_call :
  __call__ (RMSEMetric (mode MEAN)) scenario_P scenario_Y
  = Ok (scalar_tensor (Fin 2), scalar_tensor (Fin 1)).
Proof.
  unfold __call__. rewrite scenario_check_shape.
  cbn [bind _compute_metric RMSEMetric]. unfold RMSEMetric_compute_metric.
  rewrite (proj1 float_scenario), (proj2 float_scenario).
  rewrite (scenario_per_sample sq_func 4 scenario_square).
  cbn [bind]. unfold t_map. cbn [t_shape t_data map]. rewrite scenario_root.
  apply reduce_mean_single.
Qed.

Lemma scenario_psnr_call :
  __call__ (PSNRMetric (Fin 255) (mode MEAN)) scenario_P scenario_Y
  = Ok (scalar_tensor (Fin (20 * Rlog10 255 - 10 * Rlog10 4)),
        scalar_tensor (Fin 1)).
Proof.
  unfold __call__. rewrite scenario_check_shape.
  cbn [bind _compute_metric PSNRMetric]. unfold PSNRMetric_compute_metric.
  rewrite (proj1 float_scenario), (proj2 float_scenario).
  rewrite (scenario_per_sample sq_func 4 scenario_square).
  rewrite math_log10_fin by lra.
  cbn [bind]. unfold t_map. cbn [t_shape t_data map]. rewrite scenario_ratio.
  apply reduce_mean_single.
Qed.

(** C7, as the code has it: for the prediction 1 everywhere and the target 3
    everywhere, of shape (1, 1, 2, 2), with the mean reduction: MSE returns
    4, MAE returns 2, RMSE returns 2, and PSNR with [max_val] 255 returns
    20 log10(255) - 10 log10(4), which is about 42.11 (between 42.11 and
    42.12); every count of values that are not NaN is 1. *)
Theorem scenario_values :
  __call__ (MSEMetric (mode MEAN)) scenario_P scenario_Y
  = Ok (scalar_tensor (Fin 4), scalar_tensor (Fin 1))
  /\ __call__ (MAEMetric (mode MEAN)) scenario_P scenario_Y
     = Ok (scalar_tensor (Fin 2), scalar_tensor (Fin 1))
  /\ __call__ (RMSEMetric (mode MEAN)) scenario_P scenario_Y
     = Ok (scalar_tensor (Fin 2), scalar_tensor (Fin 1))
  /\ __call__ (PSNRMetric (Fin 255) (mode MEAN)) scenario_P scenario_Y
     = Ok (scalar_tensor (Fin (20 * Rlog10 255 - 10 * Rlog10 4)),
           scalar_tensor (Fin 1))
  /\ 42.11 < 20 * Rlog10 255 - 10 * Rlog10 4 < 42.12.
Proof.
  split; [exact scenario_mse_call |]. split; [exact scenario_mae_call |].
  split; [exact scenario_rmse_call |]. split; [exact scenario_psnr_call |].
  exact scenario_psnr_bounds.
Qed.

(** C7, as stated, fails on its last number: the value PSNR returns in the
    scenario is below 42.12, more than 6 away from 48.13 (which is
    20 log10(255) alone, before 10 log10(4) is taken off). *)
Lemma scenario_psnr_is_not_48 :
  __call__ (PSNRMetric (Fin 255) (mode MEAN)) scenario_P scenario_Y
  = Ok (scalar_tensor (Fin (20 * Rlog10 255 - 10 * Rlog10 4)),
        scalar_tensor (Fin 1))
  /\ 6 < 48.13 - (20 * Rlog10 255 - 10 * Rlog10 4).
Proof.
  split; [exact scenario_psnr_call |].
  pose proof scenario_psnr_bounds as [_ Hhi]. lra.
Qed.

(** ** Loading the modules *)

Section LoadingFacts.

Variable importer : string -> exception + module_obj.

Lemma import_from_names (module : string) (m : module_obj)
    (names : list string) (ns ns' : gset string) (r : option exception) :
  import_from importer module m ns names = (ns', r) ->
  forall n, n ∈ ns' -> n ∈ ns \/ n ∈ names.
Proof.
  revert ns. induction names as [|x names IH]; intros ns H n Hn.
  - cbn in H. injection H as <- _. left. exact Hn.
  - cbn [import_from] in H.
    assert (Hstep : import_from importer module m ({[ x ]} ∪ ns) names = (ns', r)
                    -> n ∈ ns \/ n ∈ x :: names).
    { intros H'. destruct (IH _ H' n Hn) as [Hin | Hin]; set_solver. }
    destruct (decide (x ∈ attrs m)); [auto |].
    destruct (is_package m).
    + destruct (importer _); [| auto]. injection H as <- _. left. exact Hn.
    + injection H as <- _. left. exact Hn.
Qed.

Lemma import_from_done (module : string) (m : module_obj)
    (names : list string) (ns ns' : gset string) :
  import_from importer module m ns names = (ns', None) ->
  forall n, n ∈ ns' <-> n ∈ ns \/ n ∈ names.
Proof.
  revert ns. induction names as [|x names IH]; intros ns H n.
  - cbn in H. injection H as <-. set_solver.
  - cbn [import_from] in H.
    assert (Hstep : import_from importer module m ({[ x ]} ∪ ns) names = (ns', None)
                    -> (n ∈ ns' <-> n ∈ ns \/ n ∈ x :: names)).
    { intros H'. rewrite (IH _ H' n). set_solver. }
    destruct (decide (x ∈ attrs m)); [auto |].
    destruct (is_package m).
    + destruct (importer _); [discriminate | auto].
    + discriminate.
Qed.

Lemma exec_stmt_names (s : stmt) (ns ns' : gset string)
    (r : option exception) :
  exec_stmt importer ns s = (ns', r) ->
  forall n, n ∈ ns' -> n ∈ ns \/ n ∈ bound_names s.
Proof.
  intros H n Hn. destruct s as [module | module names | name bases | name];
    cbn [exec_stmt bound_names] in *.
  - destruct (importer module); injection H as <- _; set_solver.
  - destruct (importer module).
    + injection H as <- _. left. exact Hn.
    + eapply import_from_names; eassumption.
  - destruct (List.find _ bases); injection H as <- _; set_solver.
  - injection H as <- _. set_solver.
Qed.

Lemma exec_stmt_done (s : stmt) (ns ns' : gset string) :
  exec_stmt importer ns s = (ns', None) ->
  forall n, n ∈ ns' <-> n ∈ ns \/ n ∈ bound_names s.
Proof.
  intros H n. destruct s as [module | module names | name bases | name];
    cbn [exec_stmt bound_names] in *.
  - destruct (importer module); [discriminate |]. injection H as <-. set_solver.
  - destruct (importer module); [discriminate |].
    eapply import_from_done; eassumption.
  - destruct (List.find _ bases); [discriminate |]. injection H as <-. set_solver.
  - injection H as <-. set_solver.
Qed.

Lemma exec_stmts_names (body : list stmt) (ns ns' : gset string)
    (r : option exception) :
  exec_stmts importer ns body = (ns', r) ->
  forall n, n ∈ ns' -> n ∈ ns \/ n ∈ body_names body.
Proof.
  revert ns. induction body as [|s body IH]; intros ns H n Hn.
  - cbn in H. injection H as <- _. left. exact Hn.
  - cbn [exec_stmts] in H. unfold body_names. cbn [flat_map].
    destruct (exec_stmt importer ns s) as [ns1 [e|]] eqn:Hs.
    + injection H as <- _.
      destruct (exec_stmt_names _ _ _ _ Hs n Hn); set_solver.
    + destruct (IH _ H n Hn) as [Hin | Hin].
      * destruct (exec_stmt_names _ _ _ _ Hs n Hin); set_solver.
      * right. apply elem_of_app. right. exact Hin.
Qed.

Lemma exec_stmts_done (body : list stmt) (ns ns' : gset string) :
  exec_stmts importer ns body = (ns', None) ->
  forall n, n ∈ ns' <-> n ∈ ns \/ n ∈ body_names body.
Proof.
  revert ns. induction body as [|s body IH]; intros ns H n.
  - cbn in H. injection H as <-. unfold body_names. cbn. set_solver.
  - cbn [exec_stmts] in H. unfold body_names. cbn [flat_map].
    destruct (exec_stmt importer ns s) as [ns1 [e|]] eqn:Hs; [discriminate |].
    rewrite (IH _ H n), (exec_stmt_done _ _ _ Hs n).
    unfold body_names. set_solver.
Qed.

(** A body stops where its first failing statement stops. *)
Lemma exec_stmts_app_stopped (body rest : list stmt) (ns ns' : gset string)
    (e : exception) :
  exec_stmts importer ns body = (ns', Some e) ->
  exec_stmts importer ns (body ++ rest) = (ns', Some e).
Proof.
  revert ns. induction body as [|s body IH]; intros ns H.
  - discriminate.
  - cbn [exec_stmts app] in *.
    destruct (exec_stmt importer ns s) as [ns1 [e1|]]; [exact H | auto].
Qed.

Lemma exec_stmts_app_done (body rest : list stmt) (ns ns' : gset string) :
  exec_stmts importer ns body = (ns', None) ->
  exec_stmts importer ns (body ++ rest) = exec_stmts importer ns' rest.
Proof.
  revert ns. induction body as [|s body IH]; intros ns H.
  - cbn in H. injection H as <-. reflexivity.
  - cbn [exec_stmts app] in *.
    destruct (exec_stmt importer ns s) as [ns1 [e1|]]; [discriminate | auto].
Qed.

End LoadingFacts.

Lemma import_from_missing (importer : string -> exception + module_obj)
    (module : string) (m : module_obj) (pre : list string) (n : string)
    (post : list string) (ns : gset string) :
  (forall x, x ∈ pre -> x ∈ attrs m) ->
  n ∉ attrs m -> is_package m = false ->
  exists ns',
    import_from importer module m ns (pre ++ n :: post)
    = (ns', Some (ImportError n module)).
Proof.
  intros Hpre Hn Hpkg. revert ns.
  induction pre as [|x pre IH]; intros ns; cbn [app import_from].
  - destruct (decide (n ∈ attrs m)); [contradiction |].
    rewrite Hpkg. eexists. reflexivity.
  - destruct (decide (x ∈ attrs m)) as [_ | Hx].
    + apply IH. intros y Hy. apply Hpre. set_solver.
    + exfalso. apply Hx, Hpre. set_solver.
Qed.

(** What [monai.metrics.regression] has when it loads: the names its body
    binds, whatever the other modules are. *)
Lemma regression_attrs (env : gmap string module_obj) (m : module_obj) :
  load_regression env = inr m ->
  is_package m = false
  /\ forall n, n ∈ attrs m <-> n ∈ body_names regression_py.
Proof.
  unfold load_regression.
  destruct (exec_stmts (find_module env) ∅ regression_py) as [ns [e|]] eqn:H;
    [discriminate |].
  intros [= <-]. split; [reflexivity |]. intros n. cbn [attrs].
  rewrite (exec_stmts_done _ _ _ _ H n). set_solver.
Qed.

(** The import of the metrics by the adapter module, once the metrics module
    has loaded. *)
Lemma adapter_import_fails (env : gmap string module_obj) (m : module_obj)
    (ns : gset string) :
  load_regression env = inr m ->
  exists ns',
    exec_stmt (import_module env) ns
      (FromImport "monai.metrics.regression"
         ["MAEMetric"; "MSEMetric"; "PSNRMetric"; "RMSEMetric";
          "MSEMetricTraining"; "MAEMetricTraining"])
    = (ns', Some (ImportError "MSEMetricTraining" "monai.metrics.regression")).
Proof.
  intros Hm. destruct (regression_attrs env m Hm) as [Hpkg Hattrs].
  cbn [exec_stmt]. unfold import_module at 1.
  cbn [String.eqb Ascii.eqb Bool.eqb]. rewrite Hm.
  apply (import_from_missing _ _ m
           ["MAEMetric"; "MSEMetric"; "PSNRMetric"; "RMSEMetric"]
           "MSEMetricTraining" ["MAEMetricTraining"]).
  - assert (Hd : Forall (fun x => x ∈ body_names regression_py)
                        ["MAEMetric"; "MSEMetric"; "PSNRMetric"; "RMSEMetric"])
      by decide_now.
    intros x Hx. apply Hattrs. exact (proj1 (Forall_forall _ _) Hd x Hx).
  - rewrite Hattrs. decide_now.
  - exact Hpkg.
Qed.

(** C9: the adapter module asks [monai.metrics.regression] for
    [MSEMetricTraining] and [MAEMetricTraining], names that module does not
    have when it loads; so the loading of the adapter module always stops on
    an exception, with none of its handler classes bound, and the exception is
    the import error on [MSEMetricTraining] when the imports before it and
    the metrics module itself load. *)
Theorem adapter_module_fails_to_load (env : gmap string module_obj) :
  (forall m, load_regression env = inr m ->
     ("MSEMetricTraining" ∉ attrs m) /\ ("MAEMetricTraining" ∉ attrs m))
  /\ (exists ns e,
        load_regression_metrics env = (ns, Some e)
        /\ forall c, c ∈ handler_classes -> c ∉ ns)
  /\ (forall ns3 m,
        exec_stmts (import_module env) ∅ (firstn 3 regression_metrics_py)
        = (ns3, None) ->
        load_regression env = inr m ->
        exists ns,
          load_regression_metrics env
          = (ns, Some (ImportError "MSEMetricTraining" "monai.metrics.regression"))).
Proof.
  assert (Hsplit : regression_metrics_py
                   = firstn 3 regression_metrics_py ++ skipn 3 regression_metrics_py)
    by (symmetry; apply firstn_skipn).
  assert (Hfresh : forall ns : gset string,
            (forall n, n ∈ ns ->
                       n ∈ (∅ : gset string)
                       \/ n ∈ body_names (firstn 4 regression_metrics_py)) ->
            forall c, c ∈ handler_classes -> c ∉ ns).
  { assert (Hd : Forall (fun c => c ∉ body_names (firstn 4 regression_metrics_py))
                        handler_classes) by decide_now.
    intros ns Hns c Hc Hin. apply Hns in Hin. destruct Hin as [H0 | H4].
    - set_solver.
    - exact (proj1 (Forall_forall _ _) Hd c Hc H4). }
  split; [| split].
  - intros m Hm. destruct (regression_attrs env m Hm) as [_ Hattrs].
    rewrite !Hattrs. split; decide_now.
  - unfold load_regression_metrics. rewrite Hsplit.
    destruct (exec_stmts (import_module env) ∅ (firstn 3 regression_metrics_py))
      as [ns3 [e|]] eqn:H3.
    + exists ns3, e. split; [apply exec_stmts_app_stopped; exact H3 |].
      apply (Hfresh ns3). intros n Hn.
      destruct (exec_stmts_names _ _ _ _ _ H3 n Hn) as [H | H]; [left; exact H |].
      right.
      change (firstn 4 regression_metrics_py)
        with (firstn 3 regression_metrics_py
                ++ [FromImport "monai.metrics.regression"
                      ["MAEMetric"; "MSEMetric"; "PSNRMetric"; "RMSEMetric";
                       "MSEMetricTraining"; "MAEMetricTraining"]]).
      unfold body_names. rewrite flat_map_app. apply elem_of_app. left. exact H.
    + rewrite (exec_stmts_app_done _ _ _ _ _ H3).
      cbn [skipn regression_metrics_py exec_stmts].
      assert (Hns3 : forall n, n ∈ ns3 ->
                n ∈ body_names (firstn 3 regression_metrics_py)).
      { intros n Hn. destruct (exec_stmts_names _ _ _ _ _ H3 n Hn) as [H | H];
          [| exact H].
        exfalso. exact (not_elem_of_empty (C := gset string) n H). }
      destruct (exec_stmt (import_module env) ns3
                  (FromImport "monai.metrics.regression"
                     ["MAEMetric"; "MSEMetric"; "PSNRMetric"; "RMSEMetric";
                      "MSEMetricTraining"; "MAEMetricTraining"]))
        as [ns4 r4] eqn:H4.
      assert (Hns4 : forall n, n ∈ ns4 ->
                n ∈ (∅ : gset string)
                \/ n ∈ body_names (firstn 4 regression_metrics_py)).
      { intros n Hn. right.
        change (firstn 4 regression_metrics_py)
          with (firstn 3 regression_metrics_py
                  ++ [FromImport "monai.metrics.regression"
                        ["MAEMetric"; "MSEMetric"; "PSNRMetric"; "RMSEMetric";
                         "MSEMetricTraining"; "MAEMetricTraining"]]).
        unfold body_names. rewrite flat_map_app. apply elem_of_app.
        destruct (exec_stmt_names _ _ _ _ _ H4 n Hn) as [H | H].
        - left. apply Hns3. exact H.
        - right. cbn [flat_map]. rewrite app_nil_r. exact H. }
      destruct (load_regression env) as [e | m] eqn:Hm.
      * cbn [exec_stmt] in H4. unfold import_module in H4 at 1.
        cbn [String.eqb Ascii.eqb Bool.eqb] in H4. rewrite Hm in H4.
        injection H4 as <- <-. exists ns3, e. split; [reflexivity |].
        apply (Hfresh ns3), Hns4.
      * destruct (adapter_import_fails env m ns3 Hm) as [ns' H'].
        rewrite H' in H4. injection H4 as <- <-.
        eexists _, _. split; [reflexivity |]. apply (Hfresh ns'), Hns4.
  - intros ns3 m H3 Hm. unfold load_regression_metrics. rewrite Hsplit.
    rewrite (exec_stmts_app_done _ _ _ _ _ H3).
    cbn [skipn regression_metrics_py exec_stmts].
    destruct (adapter_import_fails env m ns3 Hm) as [ns' H'].
    rewrite H'. exists ns'. reflexivity.
Qed.

Lemma adapter_module_fails_to_load_witness :
  exists ns,
    load_regression_metrics installed
    = (ns, Some (ImportError "MSEMetricTraining" "monai.metrics.regression")).
Proof.
  destruct (adapter_module_fails_to_load installed) as (_ & _ & H).
  eapply H.
  - vm_compute. reflexivity.
  - vm_compute. reflexivity.
Defined.

(** ** The handlers *)

(** A call of a metric whose reduction is [none] returns the tensor of values
    per sample as it is. *)
Lemma call_with_reduction_none (self : RegressionMetric) (y_pred y : tensor) :
  reduction self = mode NONE ->
  __call__ self y_pred y
  = (_ <- _check_shape y_pred y ;;
     per_sample <- _compute_metric self y_pred y ;;
     Ok (per_sample, t_map not_nan per_sample)).
Proof.
  intros Hr. unfold __call__, _reduce, do_metric_reduction. rewrite Hr.
  destruct (_check_shape y_pred y); cbn [bind]; try reflexivity;
    destruct (_compute_metric self y_pred y); reflexivity.
Qed.

Lemma iteration_with_reduction_none (Output : Type)
    (self : IterationMetric Output) (name : string) (output : Output)
    (st : accumulator) :
  reduction (metric_fn self) = mode NONE ->
  iteration_completed self name output st
  = (_ <- _check_shape (fst (output_transform self output))
                       (snd (output_transform self output)) ;;
     per_sample <- _compute_metric (metric_fn self)
                     (fst (output_transform self output))
                     (snd (output_transform self output)) ;;
     Ok (mkAccumulator
           (_scores st ++ [per_sample])
           (if save_details self
            then <[name := default [] (metric_details st !! name)
                             ++ t_data per_sample]> (metric_details st)
            else metric_details st))).
Proof.
  intros Hr. unfold iteration_completed.
  destruct (output_transform self output) as [y_pred y]. cbn [fst snd].
  rewrite call_with_reduction_none by assumption.
  destruct (_check_shape y_pred y); cbn [bind]; try reflexivity;
    destruct (_compute_metric (metric_fn self) y_pred y); reflexivity.
Qed.

(** C8: each of the four handlers builds its metric with the reduction
    [none] and keeps the transform it is given; so every iteration applies
    that transform to the output of the engine, and adds to the running
    sequence the tensor of values per sample the metric computes, not
    reduced. *)
Theorem handlers_accumulate_unreduced (Output : Type)
    (transform : Output -> tensor * tensor) (device : string)
    (save_details : bool) (max_val : scalar) :
  map metric_fn
      [ MeanSquaredError transform device save_details;
        MeanAbsoluteError transform device save_details;
        RootMeanSquaredError transform device save_details;
        PeakSignalToNoiseRatio max_val transform device save_details ]
  = [ MSEMetric (mode NONE); MAEMetric (mode NONE); RMSEMetric (mode NONE);
      PSNRMetric max_val (mode NONE) ]
  /\
  Forall
    (fun self : IterationMetric Output =>
       reduction (metric_fn self) = mode NONE
       /\ output_transform self = transform
       /\ (forall y_pred y,
             __call__ (metric_fn self) y_pred y
             = (_ <- _check_shape y_pred y ;;
                per_sample <- _compute_metric (metric_fn self) y_pred y ;;
                Ok (per_sample, t_map not_nan per_sample)))
       /\ (forall name output st,
             iteration_completed self name output st
             = (_ <- _check_shape (fst (transform output))
                                  (snd (transform output)) ;;
                per_sample <- _compute_metric (metric_fn self)
                                (fst (transform output))
                                (snd (transform output)) ;;
                Ok (mkAccumulator
                      (_scores st ++ [per_sample])
                      (if save_details
                       then <[name := default [] (metric_details st !! name)
                                        ++ t_data per_sample]>
                              (metric_details st)
                       else metric_details st)))))
    [ MeanSquaredError transform device save_details;
      MeanAbsoluteError transform device save_details;
      RootMeanSquaredError transform device save_details;
      PeakSignalToNoiseRatio max_val transform device save_details ].
Proof.
  split; [reflexivity |].
  repeat constructor;
    try (intros; apply call_with_reduction_none; reflexivity);
    intros; apply (iteration_with_reduction_none Output); reflexivity.
Qed.

(** * Further properties of the metrics *)

(** ** The samples of a batch *)

Lemma row_map (f : scalar -> scalar) (n i : nat) (l : list scalar) :
  row n (map f l) i = map f (row n l i).
Proof. unfold row. rewrite skipn_map, firstn_map. reflexivity. Qed.

Lemma row_length (n B b : nat) (l : list scalar) :
  length l = (B * n)%nat -> (b < B)%nat -> length (row n l b) = n.
Proof.
  intros Hl Hb. rewrite (row_in_range n B b l Hl Hb).
  rewrite length_map, length_seq. reflexivity.
Qed.

Section Samples.

Variables P Y : tensor.
Hypothesis HwfP : wf_tensor P.
Hypothesis HwfY : wf_tensor Y.
Hypothesis Hshape : t_shape P = t_shape Y.
Hypothesis Hdims : (2 <= length (t_shape P))%nat.

Lemma differences_length :
  length (zip_scalars s_sub (t_data Y) (t_data P))
  = (batch_size P * sample_size P)%nat.
Proof.
  destruct (shape_with_two_dims _ Hdims) as (B & rest & HP & _).
  unfold wf_tensor in HwfP, HwfY. rewrite <- Hshape in HwfY.
  unfold batch_size, sample_size. rewrite HP in *. cbn [hd tl].
  cbn [numel fold_right] in HwfP, HwfY. fold (numel rest) in HwfP, HwfY.
  rewrite zip_scalars_length. lia.
Qed.

(** The value of a sample, for any elementwise function. *)
Lemma per_sample_row (f : scalar -> scalar) :
  exists out,
    compute_mean_error_metrics P Y f = Ok out
    /\ t_shape out = [batch_size P; 1%nat]
    /\ length (t_data out) = batch_size P
    /\ forall b, (b < batch_size P)%nat ->
         nth b (t_data out) NaN
         = mean_list (map f (row (sample_size P)
                                 (zip_scalars s_sub (t_data Y) (t_data P)) b)).
Proof.
  destruct (shape_with_two_dims _ Hdims) as (B & rest & HP & Hrest).
  eexists. split; [| split; [| split]].
  - apply (compute_mean_error_metrics_value P Y f B rest); congruence.
  - unfold batch_size. rewrite HP. reflexivity.
  - unfold batch_size. rewrite HP. cbn [t_data hd].
    rewrite length_map, length_seq. reflexivity.
  - unfold batch_size, sample_size. rewrite HP. cbn [hd tl t_data].
    intros b Hb. rewrite nth_map_seq by assumption. rewrite row_map. reflexivity.
Qed.

Lemma sample_row_nth (b j : nat) :
  (b < batch_size P)%nat -> (j < sample_size P)%nat ->
  nth j (row (sample_size P) (zip_scalars s_sub (t_data Y) (t_data P)) b) NaN
  = s_sub (element Y b j) (element P b j).
Proof.
  intros Hb Hj.
  rewrite (row_in_range _ (batch_size P) b _ differences_length Hb).
  rewrite nth_map_seq by assumption.
  pose proof differences_length as Hlen. rewrite zip_scalars_length in Hlen.
  rewrite zip_scalars_nth by nia.
  unfold element, sample_size. rewrite <- Hshape. reflexivity.
Qed.

End Samples.

(** ** The sign of the values *)

Lemma square_not_negative (x : scalar) : not_negative (sq_func x).
Proof. destruct x as [r| | |]; cbn; try exact I. apply Rle_0_sqr. Qed.

Lemma absolute_not_negative (x : scalar) : not_negative (abs_func x).
Proof. destruct x as [r| | |]; cbn; try exact I. apply Rabs_pos. Qed.

Lemma root_not_negative (x : scalar) : not_negative (s_sqrt x).
Proof.
  destruct x as [r| | |]; cbn [s_sqrt not_negative]; try exact I.
  destruct (sign_of r) as [[Hneg | Hzero] | Hpos]; cbn [not_negative];
    [exact I | apply sqrt_pos | apply sqrt_pos].
Qed.

Lemma sum_list_not_negative (l : list scalar) :
  Forall not_negative l -> not_negative (sum_list l).
Proof.
  induction 1 as [|x l Hx _ IH]; [cbn; lra |].
  unfold sum_list in *. cbn [fold_right].
  destruct x as [a| | |], (fold_right s_add (Fin 0) l) as [c| | |];
    cbn in *; try exact I; try contradiction. lra.
Qed.

Lemma mean_list_not_negative (l : list scalar) :
  Forall not_negative l -> not_negative (mean_list l).
Proof.
  intros Hl. unfold mean_list.
  pose proof (sum_list_not_negative l Hl) as Hs.
  pose proof (pos_INR (length l)) as Hn.
  destruct (sum_list l) as [a| | |]; cbn [s_div not_negative] in *;
    try exact I; try contradiction.
  - destruct (sign_of (INR (length l))) as [[Hneg | Hzero] | Hpos].
    + lra.
    + destruct (sign_of a) as [[Ha | Ha] | Ha]; cbn; [lra | exact I | exact I].
    + cbn. apply Rmult_le_pos; [exact Hs | left; apply Rinv_0_lt_compat; exact Hpos].
  - destruct (sign_of (INR (length l))) as [[Hneg | Hzero] | Hpos];
      cbn; [lra | exact I | exact I].
Qed.

(** X1: the error metrics are never negative.  On tensors of one shape with
    at least two dimensions, whatever their values are, MSE, MAE and RMSE
    return one value per sample, and each of these values is a number that
    is zero or more, plus infinity or NaN; never a negative number and never
    minus infinity. *)
Theorem error_metrics_are_never_negative (r : reduction_arg) (P Y : tensor) :
  t_shape P = t_shape Y ->
  (2 <= length (t_shape P))%nat ->
  Forall
    (fun metric =>
       exists out,
         _compute_metric metric P Y = Ok out
         /\ length (t_data out) = batch_size P
         /\ Forall not_negative (t_data out))
    [MSEMetric r; MAEMetric r; RMSEMetric r].
Proof.
  intros Hsh Hdim.
  assert (Hhelper : forall f, (forall x, not_negative (f x)) ->
            exists out,
              compute_mean_error_metrics (float P) (float Y) f = Ok out
              /\ length (t_data out) = batch_size P
              /\ Forall not_negative (t_data out)).
  { intros f Hf.
    destruct (per_sample_row (float P) (float Y) Hsh Hdim f)
      as (out & Hout & _ & Hlen & Hval).
    change (batch_size (float P)) with (batch_size P) in *.
    exists out. split; [exact Hout |]. split; [exact Hlen |].
    apply (proj2 (Forall_nth not_negative NaN (t_data out))).
    intros b Hb. rewrite Hlen in Hb. rewrite (Hval b Hb).
    apply mean_list_not_negative. apply List.Forall_map.
    apply List.Forall_forall. intros x _. apply Hf. }
  destruct (Hhelper sq_func square_not_negative) as (mse & Hmse & Hlen & Hnn).
  destruct (Hhelper abs_func absolute_not_negative) as (mae & Hmae & Hlena & Hnna).
  repeat constructor; cbn [_compute_metric MSEMetric MAEMetric RMSEMetric];
    unfold MSEMetric_compute_metric, MAEMetric_compute_metric,
      RMSEMetric_compute_metric;
    rewrite ?Hmse, ?Hmae; cbn [bind].
  - exists mse. auto.
  - exists mae. auto.
  - eexists. split; [reflexivity |]. cbn [t_map t_data]. rewrite length_map.
    split; [exact Hlen |]. apply List.Forall_map.
    apply List.Forall_forall. intros x _. apply root_not_negative.
Qed.

Lemma error_metrics_are_never_negative_witness :
  Forall
    (fun metric =>
       exists out,
         _compute_metric metric scenario_P scenario_Y = Ok out
         /\ length (t_data out) = batch_size scenario_P
         /\ Forall not_negative (t_data out))
    [MSEMetric (mode MEAN); MAEMetric (mode MEAN); RMSEMetric (mode MEAN)].
Proof.
  apply (error_metrics_are_never_negative (mode MEAN) scenario_P scenario_Y).
  - reflexivity.
  - simpl. lia.
Defined.

(** ** NaN: samples without elements, and NaN among the elements *)

Lemma sum_list_with_nan (l : list scalar) : In NaN l -> sum_list l = NaN.
Proof.
  induction l as [|x l IH]; [contradiction |]. intros [-> | Hin].
  - reflexivity.
  - unfold sum_list in *. cbn [fold_right]. rewrite (IH Hin).
    destruct x; reflexivity.
Qed.

Lemma mean_list_with_nan (l : list scalar) : In NaN l -> mean_list l = NaN.
Proof. intros H. unfold mean_list. rewrite sum_list_with_nan by exact H. reflexivity. Qed.

Lemma psnr_of_nan (l : scalar) :
  s_sub (s_mul (Fin 20) l) (s_mul (Fin 10) (s_log10 NaN)) = NaN.
Proof.
  change (s_mul (Fin 10) (s_log10 NaN)) with NaN.
  destruct (s_mul (Fin 20) l); reflexivity.
Qed.

(** The four metrics through the helper they share, which they call on the
    converted tensors: the MSE and MAE values are those of the helper, the
    RMSE and PSNR values are functions of the MSE value, element by
    element. *)
Lemma metrics_through_helper (max_val l : scalar) (r : reduction_arg)
    (P Y mse mae : tensor) :
  compute_mean_error_metrics (float P) (float Y) sq_func = Ok mse ->
  compute_mean_error_metrics (float P) (float Y) abs_func = Ok mae ->
  math_log10 max_val = Ok l ->
  _compute_metric (MSEMetric r) P Y = Ok mse
  /\ _compute_metric (MAEMetric r) P Y = Ok mae
  /\ _compute_metric (RMSEMetric r) P Y = Ok (t_map s_sqrt mse)
  /\ _compute_metric (PSNRMetric max_val r) P Y
     = Ok (t_map (fun m => s_sub (s_mul (Fin 20) l)
                                 (s_mul (Fin 10) (s_log10 m))) mse).
Proof.
  intros Hmse Hmae Hl. cbn [_compute_metric MSEMetric MAEMetric RMSEMetric PSNRMetric].
  unfold MSEMetric_compute_metric, MAEMetric_compute_metric,
    RMSEMetric_compute_metric, PSNRMetric_compute_metric.
  rewrite Hmse, Hmae. cbn [bind]. rewrite Hl. repeat split; reflexivity.
Qed.

(** X3: when a sample has no element (a non-batch dimension is 0), every
    metric gives NaN for every sample: MSE and MAE as the mean of nothing,
    RMSE and PSNR as functions of that NaN. *)
Theorem metrics_of_empty_samples_are_nan (max_val : scalar)
    (r : reduction_arg) (P Y : tensor) :
  is_positive max_val ->
  t_shape P = t_shape Y ->
  (2 <= length (t_shape P))%nat ->
  sample_size P = 0%nat ->
  Forall
    (fun metric =>
       exists out,
         _compute_metric metric P Y = Ok out
         /\ length (t_data out) = batch_size P
         /\ forall b, (b < batch_size P)%nat -> nth b (t_data out) NaN = NaN)
    [MSEMetric r; MAEMetric r; RMSEMetric r; PSNRMetric max_val r].
Proof.
  intros Hmax Hsh Hdim Hzero.
  destruct (math_log10_positive max_val Hmax) as (l & Hl & _).
  destruct (per_sample_row (float P) (float Y) Hsh Hdim sq_func)
    as (mse & Hmse & _ & Hlen & Hvs).
  destruct (per_sample_row (float P) (float Y) Hsh Hdim abs_func)
    as (mae & Hmae & _ & Hlena & Hva).
  change (batch_size (float P)) with (batch_size P) in *.
  change (sample_size (float P)) with (sample_size P) in *.
  destruct (metrics_through_helper max_val l r P Y mse mae Hmse Hmae Hl)
    as (H1 & H2 & H3 & H4).
  assert (Hs : forall b, (b < batch_size P)%nat -> nth b (t_data mse) NaN = NaN).
  { intros b Hb. rewrite (Hvs b Hb), Hzero. apply mean_of_nothing. }
  assert (Ha : forall b, (b < batch_size P)%nat -> nth b (t_data mae) NaN = NaN).
  { intros b Hb. rewrite (Hva b Hb), Hzero. apply mean_of_nothing. }
  repeat constructor.
  - exists mse. auto.
  - exists mae. auto.
  - eexists. split; [exact H3 |]. cbn [t_map t_data]. rewrite length_map.
    split; [exact Hlen |]. intros b Hb.
    rewrite nth_map_in_range by (rewrite Hlen; exact Hb). rewrite (Hs b Hb).
    reflexivity.
  - eexists. split; [exact H4 |]. cbn [t_map t_data]. rewrite length_map.
    split; [exact Hlen |]. intros b Hb.
    rewrite nth_map_in_range by (rewrite Hlen; exact Hb). rewrite (Hs b Hb).
    apply psnr_of_nan.
Qed.

Lemma metrics_of_empty_samples_are_nan_witness :
  Forall
    (fun metric =>
       exists out,
         _compute_metric metric empty_sample empty_sample = Ok out
         /\ length (t_data out) = batch_size empty_sample
         /\ forall b, (b < batch_size empty_sample)%nat ->
                      nth b (t_data out) NaN = NaN)
    [MSEMetric (mode MEAN); MAEMetric (mode MEAN); RMSEMetric (mode MEAN);
     PSNRMetric (Fin 255) (mode MEAN)].
Proof.
  apply (metrics_of_empty_samples_are_nan (Fin 255) (mode MEAN)
           empty_sample empty_sample).
  - simpl. lra.
  - reflexivity.
  - simpl. lia.
  - reflexivity.
Defined.

(** X4: a NaN among the elements of a sample, in the prediction or in the
    target, makes the value of that sample NaN in every metric: each returns
    one value per sample, and the one of that sample is NaN. *)
Theorem nan_element_makes_its_sample_nan (max_val : scalar)
    (r : reduction_arg) (P Y : tensor) (b j : nat) :
  is_positive max_val ->
  wf_tensor P -> wf_tensor Y ->
  t_shape P = t_shape Y ->
  (2 <= length (t_shape P))%nat ->
  (b < batch_size P)%nat -> (j < sample_size P)%nat ->
  element P b j = NaN \/ element Y b j = NaN ->
  Forall
    (fun metric =>
       exists out,
         _compute_metric metric P Y = Ok out
         /\ length (t_data out) = batch_size P
         /\ t_data out !! b = Some NaN)
    [MSEMetric r; MAEMetric r; RMSEMetric r; PSNRMetric max_val r].
Proof.
  intros Hmax HwP HwY Hsh Hdim Hb Hj Hnan.
  destruct (math_log10_positive max_val Hmax) as (l & Hl & _).
  destruct (per_sample_row (float P) (float Y) Hsh Hdim sq_func)
    as (mse & Hmse & _ & Hlen & Hvs).
  destruct (per_sample_row (float P) (float Y) Hsh Hdim abs_func)
    as (mae & Hmae & _ & Hlena & Hva).
  change (batch_size (float P)) with (batch_size P) in *.
  change (sample_size (float P)) with (sample_size P) in *.
  destruct (metrics_through_helper max_val l r P Y mse mae Hmse Hmae Hl)
    as (H1 & H2 & H3 & H4).
  assert (Hrow : In NaN (row (sample_size P)
                             (zip_scalars s_sub (t_data (float Y))
                                          (t_data (float P))) b)).
  { assert (Hd : s_sub (element (float Y) b j) (element (float P) b j) = NaN).
    { rewrite !element_float.
      destruct Hnan as [-> | ->]; cbn [to_float32];
        [destruct (to_float32 (element Y b j)) |]; reflexivity. }
    rewrite <- Hd.
    rewrite <- (sample_row_nth (float P) (float Y) (wf_float P HwP)
                  (wf_float Y HwY) Hsh Hdim b j Hb Hj).
    apply nth_In.
    rewrite (row_length _ (batch_size P));
      [exact Hj
      | apply (differences_length (float P) (float Y));
        [apply wf_float | apply wf_float | |]; assumption
      | exact Hb]. }
  assert (Hs : nth b (t_data mse) NaN = NaN).
  { rewrite (Hvs b Hb). apply mean_list_with_nan.
    change NaN with (sq_func NaN) at 1. apply in_map. exact Hrow. }
  assert (Ha : nth b (t_data mae) NaN = NaN).
  { rewrite (Hva b Hb). apply mean_list_with_nan.
    change NaN with (abs_func NaN) at 1. apply in_map. exact Hrow. }
  assert (Hat : forall l0 : list scalar,
            length l0 = batch_size P -> nth b l0 NaN = NaN ->
            l0 !! b = Some NaN).
  { intros l0 Hl0 Hn0.
    destruct (nth_lookup_or_length l0 b NaN) as [Hin | Hout]; [| lia].
    rewrite Hin, Hn0. reflexivity. }
  repeat constructor.
  - exists mse. auto.
  - exists mae. auto.
  - eexists. split; [exact H3 |]. cbn [t_map t_data].
    assert (Hl3 : length (map s_sqrt (t_data mse)) = batch_size P)
      by (rewrite length_map; exact Hlen).
    split; [exact Hl3 |]. apply Hat; [exact Hl3 |].
    rewrite nth_map_in_range by (rewrite Hlen; exact Hb). rewrite Hs. reflexivity.
  - eexists. split; [exact H4 |]. cbn [t_map t_data].
    assert (Hl4 : length (map (fun m => s_sub (s_mul (Fin 20) l)
                                          (s_mul (Fin 10) (s_log10 m)))
                              (t_data mse)) = batch_size P)
      by (rewrite length_map; exact Hlen).
    split; [exact Hl4 |]. apply Hat; [exact Hl4 |].
    rewrite nth_map_in_range by (rewrite Hlen; exact Hb). rewrite Hs.
    apply psnr_of_nan.
Qed.

Lemma nan_element_makes_its_sample_nan_witness :
  Forall
    (fun metric =>
       exists out,
         _compute_metric metric (mkTensor [1; 2]%nat [Fin 1; NaN])
                         (mkTensor [1; 2]%nat [Fin 1; Fin 2]) = Ok out
         /\ length (t_data out) = 1%nat
         /\ t_data out !! 0%nat = Some NaN)
    [MSEMetric (mode MEAN); MAEMetric (mode MEAN); RMSEMetric (mode MEAN);
     PSNRMetric (Fin 255) (mode MEAN)].
Proof.
  apply (nan_element_makes_its_sample_nan (Fin 255) (mode MEAN)
           (mkTensor [1; 2]%nat [Fin 1; NaN])
           (mkTensor [1; 2]%nat [Fin 1; Fin 2]) 0 1).
  - simpl. lra.
  - reflexivity.
  - reflexivity.
  - reflexivity.
  - simpl. lia.
  - unfold batch_size. simpl. lia.
  - unfold sample_size. simpl. lia.
  - left. reflexivity.
Defined.

(** ** Samples and the dynamic range *)

(** X5: the value of a sample depends on the elements of that sample alone:
    two pairs of tensors with samples of one size that agree on the sample
    [b] have the same value there, whatever their other samples and their
    batch sizes are. *)
Theorem sample_value_depends_on_its_elements (f : scalar -> scalar)
    (P Y P' Y' : tensor) (b : nat) :
  wf_tensor P -> wf_tensor Y -> wf_tensor P' -> wf_tensor Y' ->
  t_shape P = t_shape Y -> t_shape P' = t_shape Y' ->
  (2 <= length (t_shape P))%nat -> (2 <= length (t_shape P'))%nat ->
  sample_size P = sample_size P' ->
  (b < batch_size P)%nat -> (b < batch_size P')%nat ->
  (forall j, (j < sample_size P)%nat ->
     element P b j = element P' b j /\ element Y b j = element Y' b j) ->
  exists out out',
    compute_mean_error_metrics P Y f = Ok out
    /\ compute_mean_error_metrics P' Y' f = Ok out'
    /\ nth b (t_data out) NaN = nth b (t_data out') NaN.
Proof.
  intros HwP HwY HwP' HwY' Hsh Hsh' Hdim Hdim' Hsize Hb Hb' Hagree.
  destruct (per_sample_row P Y Hsh Hdim f) as (out & Hout & _ & _ & Hv).
  destruct (per_sample_row P' Y' Hsh' Hdim' f) as (out' & Hout' & _ & _ & Hv').
  exists out, out'. split; [exact Hout |]. split; [exact Hout' |].
  rewrite (Hv b Hb), (Hv' b Hb'). do 2 f_equal.
  apply (nth_ext _ _ NaN NaN).
  - rewrite (row_length _ (batch_size P))
      by (apply differences_length || exact Hb; assumption).
    rewrite (row_length _ (batch_size P'))
      by (apply differences_length || exact Hb'; assumption).
    exact Hsize.
  - intros j Hj.
    rewrite (row_length _ (batch_size P)) in Hj
      by (apply differences_length || exact Hb; assumption).
    rewrite (sample_row_nth P Y HwP HwY Hsh Hdim b j Hb Hj).
    rewrite (sample_row_nth P' Y' HwP' HwY' Hsh' Hdim' b j Hb')
      by (rewrite <- Hsize; exact Hj).
    destruct (Hagree j Hj) as [-> ->]. reflexivity.
Qed.

Lemma sample_value_depends_on_its_elements_witness :
  exists out out',
    compute_mean_error_metrics (mkTensor [1; 2]%nat [Fin 1; Fin 2])
                               (mkTensor [1; 2]%nat [Fin 3; Fin 5]) sq_func
    = Ok out
    /\ compute_mean_error_metrics
         (mkTensor [2; 2]%nat [Fin 1; Fin 2; Fin 7; NaN])
         (mkTensor [2; 2]%nat [Fin 3; Fin 5; PInf; Fin 0]) sq_func
       = Ok out'
    /\ nth 0 (t_data out) NaN = nth 0 (t_data out') NaN.
Proof.
  apply (sample_value_depends_on_its_elements sq_func
           (mkTensor [1; 2]%nat [Fin 1; Fin 2])
           (mkTensor [1; 2]%nat [Fin 3; Fin 5])
           (mkTensor [2; 2]%nat [Fin 1; Fin 2; Fin 7; NaN])
           (mkTensor [2; 2]%nat [Fin 3; Fin 5; PInf; Fin 0]) 0).
  - reflexivity.
  - reflexivity.
  - reflexivity.
  - reflexivity.
  - reflexivity.
  - reflexivity.
  - simpl. lia.
  - simpl. lia.
  - reflexivity.
  - unfold batch_size. simpl. lia.
  - unfold batch_size. simpl. lia.
  - unfold sample_size. cbn [t_shape tl numel fold_right Nat.mul].
    intros [|[|j]] Hj; [split; reflexivity | split; reflexivity | lia].
Defined.

(** X6: a PSNR metric built with a [max_val] that is zero or negative is
    accepted by the constructor, and every call of it on tensors that pass the
    shape check raises the domain error of [math.log10], whatever the
    reduction is. *)
Theorem psnr_call_raises_on_nonpositive_max_val (v : R)
    (r : reduction_arg) (P Y : tensor) :
  v <= 0 ->
  t_shape P = t_shape Y ->
  (2 <= length (t_shape P))%nat ->
  __call__ (PSNRMetric (Fin v) r) P Y = Raise (ValueError math_domain_error).
Proof.
  intros Hv Hsh Hdim. unfold __call__.
  rewrite check_shape_ok by assumption. cbn [bind _compute_metric PSNRMetric].
  unfold PSNRMetric_compute_metric.
  destruct (per_sample_row (float P) (float Y) Hsh Hdim sq_func)
    as (mse & Hmse & _).
  rewrite Hmse. cbn [bind]. rewrite math_log10_not_positive by exact Hv.
  reflexivity.
Qed.

Lemma psnr_call_raises_on_nonpositive_max_val_witness :
  __call__ (PSNRMetric (Fin 0) (mode MEAN)) scenario_P scenario_Y
  = Raise (ValueError math_domain_error).
Proof.
  apply (psnr_call_raises_on_nonpositive_max_val 0 (mode MEAN)
           scenario_P scenario_Y).
  - lra.
  - reflexivity.
  - simpl. lia.
Defined.

Lemma Rlog10_of_quotient (v q : R) :
  0 < v -> 0 < q ->
  20 * Rlog10 (v / q) = 20 * Rlog10 v - 10 * Rlog10 (q * q).
Proof.
  intros Hv Hq. change (v / q) with (v * / q). unfold Rlog10.
  rewrite !ln_mult by (try apply Rinv_0_lt_compat; assumption).
  rewrite ln_Rinv by assumption.
  pose proof ln_10_pos. field. lra.
Qed.

(** The values of MSE, RMSE and PSNR side by side, for a finite positive
    [max_val]. *)
Lemma psnr_beside_mse (v : R) (r : reduction_arg) (P Y : tensor) :
  0 < v ->
  t_shape P = t_shape Y ->
  (2 <= length (t_shape P))%nat ->
  exists mse rmse psnr,
    _compute_metric (MSEMetric r) P Y = Ok mse
    /\ _compute_metric (RMSEMetric r) P Y = Ok rmse
    /\ _compute_metric (PSNRMetric (Fin v) r) P Y = Ok psnr
    /\ forall b, (b < batch_size P)%nat ->
         nth b (t_data rmse) NaN = s_sqrt (nth b (t_data mse) NaN)
         /\ nth b (t_data psnr) NaN
            = s_sub (Fin (20 * Rlog10 v))
                    (s_mul (Fin 10) (s_log10 (nth b (t_data mse) NaN))).
Proof.
  intros Hv Hsh Hdim.
  destruct (per_sample_row (float P) (float Y) Hsh Hdim sq_func)
    as (mse & Hmse & _ & Hlen & _).
  destruct (per_sample_row (float P) (float Y) Hsh Hdim abs_func)
    as (mae & Hmae & _).
  change (batch_size (float P)) with (batch_size P) in Hlen.
  destruct (metrics_through_helper (Fin v) (Fin (Rlog10 v)) r P Y mse mae Hmse Hmae
              (math_log10_fin v Hv)) as (H1 & _ & H3 & H4).
  do 3 eexists. split; [exact H1 |]. split; [exact H3 |]. split; [exact H4 |].
  intros b Hb. cbn [t_map t_data].
  rewrite !nth_map_in_range by (rewrite Hlen; exact Hb). split; reflexivity.
Qed.

(** X9: for a finite positive [max_val], wherever the RMSE value of a sample
    is a positive number [q], the PSNR value of that sample is
    20 log10(max_val / q). *)
Theorem psnr_is_log_of_range_over_rmse (v : R) (r : reduction_arg)
    (P Y : tensor) :
  0 < v ->
  t_shape P = t_shape Y ->
  (2 <= length (t_shape P))%nat ->
  exists rmse psnr,
    _compute_metric (RMSEMetric r) P Y = Ok rmse
    /\ _compute_metric (PSNRMetric (Fin v) r) P Y = Ok psnr
    /\ forall b q, (b < batch_size P)%nat ->
         nth b (t_data rmse) NaN = Fin q -> 0 < q ->
         nth b (t_data psnr) NaN = Fin (20 * Rlog10 (v / q)).
Proof.
  intros Hv Hsh Hdim.
  destruct (psnr_beside_mse v r P Y Hv Hsh Hdim)
    as (mse & rmse & psnr & _ & H2 & H3 & Hval).
  exists rmse, psnr. split; [exact H2 |]. split; [exact H3 |].
  intros b q Hb Hq Hpos. destruct (Hval b Hb) as [Hr Hp].
  rewrite Hq in Hr. rewrite Hp.
  destruct (nth b (t_data mse) NaN) as [m| | |]; cbn [s_sqrt] in Hr;
    try discriminate.
  - destruct (sign_of m) as [[Hneg | Hzero] | Hmpos]; try discriminate.
    + subst m. rewrite sqrt_0 in Hr. injection Hr as Hr. lra.
    + injection Hr as Hr. rewrite s_log10_fin by exact Hmpos.
      cbn [s_mul s_sub s_neg s_add]. f_equal.
      rewrite (Rlog10_of_quotient v q Hv Hpos).
      rewrite Hr, sqrt_sqrt by lra. reflexivity.
Qed.

Lemma psnr_is_log_of_range_over_rmse_witness :
  exists rmse psnr,
    _compute_metric (RMSEMetric (mode MEAN)) scenario_P scenario_Y = Ok rmse
    /\ _compute_metric (PSNRMetric (Fin 255) (mode MEAN)) scenario_P scenario_Y
       = Ok psnr
    /\ forall b q, (b < batch_size scenario_P)%nat ->
         nth b (t_data rmse) NaN = Fin q -> 0 < q ->
         nth b (t_data psnr) NaN = Fin (20 * Rlog10 (255 / q)).
Proof.
  apply (psnr_is_log_of_range_over_rmse 255 (mode MEAN) scenario_P scenario_Y).
  - lra.
  - reflexivity.
  - simpl. lia.
Defined.

(** ** The metrics without the check of the shapes *)

Lemma helper_on_few_dimensions (P Y : tensor) (f : scalar -> scalar) :
  t_shape P = t_shape Y ->
  (length (t_shape P) < 2)%nat ->
  compute_mean_error_metrics P Y f = Raise IndexError.
Proof.
  intros Hsh Hdim. unfold compute_mean_error_metrics, t_sub.
  destruct (shape_eq_dec (t_shape Y) (t_shape P)) as [_ | Hne];
    [| exfalso; apply Hne; symmetry; exact Hsh].
  cbn [bind]. unfold flatten. cbn [t_map t_shape].
  rewrite <- Hsh.
  destruct (1 <? length (t_shape P))%nat eqn:Hlt; [| reflexivity].
  apply Nat.ltb_lt in Hlt. lia.
Qed.

(** X10: it is the check of [__call__] that keeps the computation away from
    tensors with a batch dimension only.  On two tensors of one shape with
    fewer than two dimensions, [compute_mean_error_metrics] and the
    [_compute_metric] of the four metrics, called directly, raise an index
    error (for PSNR before [max_val] is looked at), where [__call__] raises
    the value error of the check. *)
Theorem compute_metric_needs_the_shape_check (max_val : scalar)
    (r : reduction_arg) (f : scalar -> scalar) (P Y : tensor) :
  t_shape P = t_shape Y ->
  (length (t_shape P) < 2)%nat ->
  compute_mean_error_metrics P Y f = Raise IndexError
  /\ (forall M, In M [MSEMetric r; MAEMetric r; RMSEMetric r;
                      PSNRMetric max_val r] ->
        _compute_metric M P Y = Raise IndexError
        /\ __call__ M P Y = Raise (ValueError only_batch_dimension)).
Proof.
  intros Hsh Hdim. split; [apply helper_on_few_dimensions; assumption |].
  intros M HM. split.
  - cbn [In] in HM.
    destruct HM as [<- | [<- | [<- | [<- | []]]]];
      cbn [_compute_metric MSEMetric MAEMetric RMSEMetric PSNRMetric];
      unfold MSEMetric_compute_metric, MAEMetric_compute_metric,
             RMSEMetric_compute_metric, PSNRMetric_compute_metric;
      rewrite (helper_on_few_dimensions (float P) (float Y)) by assumption;
      reflexivity.
  - unfold __call__. rewrite check_shape_few_dims by assumption. reflexivity.
Qed.

Lemma compute_metric_needs_the_shape_check_witness :
  compute_mean_error_metrics (mkTensor [3%nat] [Fin 1; Fin 2; Fin 3])
                             (mkTensor [3%nat] [Fin 1; Fin 2; Fin 4]) sq_func
  = Raise IndexError
  /\ (forall M, In M [MSEMetric (mode MEAN); MAEMetric (mode MEAN);
                      RMSEMetric (mode MEAN); PSNRMetric (Fin 0) (mode MEAN)] ->
        _compute_metric M (mkTensor [3%nat] [Fin 1; Fin 2; Fin 3])
                          (mkTensor [3%nat] [Fin 1; Fin 2; Fin 4])
        = Raise IndexError
        /\ __call__ M (mkTensor [3%nat] [Fin 1; Fin 2; Fin 3])
                      (mkTensor [3%nat] [Fin 1; Fin 2; Fin 4])
           = Raise (ValueError only_batch_dimension)).
Proof.
  apply (compute_metric_needs_the_shape_check (Fin 0) (mode MEAN) sq_func).
  - reflexivity.
  - simpl. lia.
Defined.
